(** * mailctl: thread reconstruction and reply recommendation

    A shallow embedding of [src/thread_analyzer.py] (class [ThreadAnalyzer])
    and of the orchestration in [src/ai_analyzer.py] (class [AIAnalyzer]),
    followed by the properties of the specification that concern them.

    Conventions of the embedding.
    - A Python [str] is a [string]; a character is read as a code point
      below 256 (Latin-1), on which [str.lower], [str.isspace] and the
      regular expression class [\s] act as written out below.
    - A message is a Python dict read with [.get(key, default)]: the keys
      [id], [sender], [subject], [body] are optional fields, because
      different call sites use different defaults; [headers] defaults to
      the empty list everywhere, and a header's [name] and [value] default
      to the empty string everywhere.
    - What the interpreter leaves unspecified (the value of [hash] on a
      string, the iteration order of a [set], the reading of the wall clock)
      is a field of the class [Runtime]. *)

From Stdlib Require Import String Ascii List Bool Arith ZArith Lia.
From Stdlib Require Import Permutation DecimalString Floats.
Import ListNotations.

Set Warnings "-inexact-float,-register-all".
Open Scope string_scope.

(** ** Python string primitives *)

Module PyStr.

(** [str.isspace] on one code point, which is also the class [\s] of [re]
    for [str] patterns: TAB..CR, FS..US, SPACE, NEL and NBSP. *)
Definition isspace (c : ascii) : bool :=
  let n := nat_of_ascii c in
  (((9 <=? n) && (n <=? 13)) || ((28 <=? n) && (n <=? 32))
   || (n =? 133) || (n =? 160))%nat.

(** [str.lower] on one code point: A..Z and the Latin-1 capitals
    (0xC0..0xDE without the multiplication sign 0xD7) move up by 32. *)
Definition lower_char (c : ascii) : ascii :=
  let n := nat_of_ascii c in
  if (((65 <=? n) && (n <=? 90))
      || ((192 <=? n) && (n <=? 222) && negb (n =? 215)))%nat
  then ascii_of_nat (n + 32) else c.

Fixpoint lower (s : string) : string :=
  match s with
  | EmptyString => EmptyString
  | String c r => String (lower_char c) (lower r)
  end.

(** [s.startswith(p)] *)
Fixpoint startswith (p s : string) : bool :=
  match p, s with
  | EmptyString, _ => true
  | String a p', String b s' => Ascii.eqb a b && startswith p' s'
  | String _ _, EmptyString => false
  end.

(** [p in s] for strings: [p] occurs in [s] as a contiguous run. *)
Fixpoint contains (p s : string) : bool :=
  startswith p s ||
  match s with
  | EmptyString => false
  | String _ r => contains p r
  end.

(** [s.count(c)] for a one-character pattern. *)
Fixpoint count_char (c : ascii) (s : string) : nat :=
  match s with
  | EmptyString => 0
  | String a r => (if Ascii.eqb a c then 1 else 0) + count_char c r
  end.

(** [s[:n]] *)
Fixpoint take (n : nat) (s : string) : string :=
  match n, s with
  | S k, String c r => String c (take k r)
  | _, _ => EmptyString
  end.

(** [s[n:]] *)
Fixpoint drop (n : nat) (s : string) : string :=
  match n, s with
  | S k, String _ r => drop k r
  | _, _ => s
  end.

(** [s.lstrip()] *)
Fixpoint lstrip (s : string) : string :=
  match s with
  | String c r => if isspace c then lstrip r else s
  | EmptyString => EmptyString
  end.

(** [s.rstrip()]: a space is dropped when nothing but spaces follows. *)
Fixpoint rstrip (s : string) : string :=
  match s with
  | EmptyString => EmptyString
  | String c r =>
      match rstrip r with
      | EmptyString => if isspace c then EmptyString else String c EmptyString
      | r' => String c r'
      end
  end.

(** [s.strip()] *)
Definition strip (s : string) : string := rstrip (lstrip s).

(** [s.split()]: the maximal runs of non-space characters, in order.
    [cur] holds the run being read. *)
Fixpoint split_from (cur : string) (s : string) : list string :=
  match s with
  | EmptyString =>
      match cur with EmptyString => [] | _ => [cur] end
  | String c r =>
      if isspace c then
        match cur with
        | EmptyString => split_from EmptyString r
        | _ => cur :: split_from EmptyString r
        end
      else split_from (cur ++ String c EmptyString) r
  end.

Definition split (s : string) : list string := split_from EmptyString s.

(** [sep.join(l)] *)
Fixpoint join (sep : string) (l : list string) : string :=
  match l with
  | [] => EmptyString
  | [x] => x
  | x :: r => x ++ sep ++ join sep r
  end.

(** [str(n)] for an [int]. *)
Definition of_Z (z : Z) : string := NilZero.string_of_int (Z.to_int z).

(** [str(n)] for a length or a count. *)
Definition of_nat (n : nat) : string := NilZero.string_of_uint (Nat.to_uint n).

(** Truth value of a [str]: the empty string is false. *)
Definition nonempty (s : string) : bool :=
  match s with EmptyString => false | String _ _ => true end.

End PyStr.

(** ** Messages *)

Record Header := mkHeader {
  hname : string;   (* header.get('name', '') *)
  hvalue : string   (* header.get('value', '') *)
}.

Record Email := mkEmail {
  id : option string;
  sender : option string;
  subject : option string;
  body : option string;
  headers : list Header   (* email.get('headers', []) *)
}.

(** [d.get(key, default)] on an optional field. *)
Definition get_or {A : Type} (o : option A) (default : A) : A :=
  match o with Some v => v | None => default end.

(** Truth value of a variable that holds [None] or a [str]. *)
Definition truthy (o : option string) : bool :=
  match o with Some s => PyStr.nonempty s | None => false end.

(** ** What the interpreter leaves open *)

Class Runtime := {
  (** the builtin [hash] on strings (seeded per process) *)
  py_hash : string -> Z;
  (** [list(s)] for a set [s] holding the given distinct elements: the
      same elements in an order of the interpreter's choosing *)
  set_iter : list string -> list string;
  set_iter_perm : forall l, Permutation (set_iter l) l;
  (** the reading of the [n]-th call of [datetime.now()], in microseconds *)
  clock : nat -> Z
}.

(** ** ThreadAnalyzer *)

(** [re.sub(r'[<>\s]', '', message_id)] *)
Fixpoint _normalize_message_id (message_id : string) : string :=
  match message_id with
  | EmptyString => EmptyString
  | String c r =>
      if Ascii.eqb c "<" || Ascii.eqb c ">" || PyStr.isspace c
      then _normalize_message_id r
      else String c (_normalize_message_id r)
  end.

(** [re.sub(r'\s+', ' ', s)]: every maximal run of spaces becomes one
    blank.  [in_run] tells that the previous character was a space. *)
Fixpoint collapse_spaces (in_run : bool) (s : string) : string :=
  match s with
  | EmptyString => EmptyString
  | String c r =>
      if PyStr.isspace c
      then if in_run then collapse_spaces true r
           else String " " (collapse_spaces true r)
      else String c (collapse_spaces false r)
  end.

(** [re.sub(r'^(re|fwd|fw):\s*', '', s, flags=re.IGNORECASE)] on a
    lower-cased [s]: one leading marker and the spaces after it go. *)
Definition strip_reply_prefix (s : string) : string :=
  if PyStr.startswith "re:" s then PyStr.lstrip (PyStr.drop 3 s)
  else if PyStr.startswith "fwd:" s then PyStr.lstrip (PyStr.drop 4 s)
  else if PyStr.startswith "fw:" s then PyStr.lstrip (PyStr.drop 3 s)
  else s.

Definition _normalize_subject (subj : string) : string :=
  let normalized := strip_reply_prefix (PyStr.lower subj) in
  PyStr.strip (collapse_spaces false normalized).

(** The three variables the header loop of [extract_thread_id] assigns. *)
Record ThreadHeaders := mkTH {
  in_reply_to : option string;
  references : option string;
  message_id : option string
}.

(** One iteration of [for header in headers]. *)
Definition scan_header (st : ThreadHeaders) (h : Header) : ThreadHeaders :=
  let name := PyStr.lower (hname h) in
  let value := hvalue h in
  if String.eqb name "message-id" then
    mkTH (in_reply_to st) (references st) (Some (_normalize_message_id value))
  else if String.eqb name "in-reply-to" then
    mkTH (Some (_normalize_message_id value)) (references st) (message_id st)
  else if String.eqb name "references" then
    mkTH (in_reply_to st) (Some value) (message_id st)
  else st.

Definition scan_headers (hs : list Header) : ThreadHeaders :=
  fold_left scan_header hs (mkTH None None None).

(** The subject fallback of [extract_thread_id]. *)
Definition subject_key `{Runtime} (email : Email) : string :=
  let subj := get_or (subject email) "" in
  let normalized_subject := _normalize_subject subj in
  "subject-" ++ PyStr.of_Z (py_hash normalized_subject).

(** The tail of [extract_thread_id] from the test of [message_id] on. *)
Definition resolve_message_id `{Runtime} (st : ThreadHeaders) (email : Email)
  : string :=
  if truthy (message_id st) then get_or (message_id st) ""
  else subject_key email.

(** The tail of [extract_thread_id] from the test of [references] on. *)
Definition resolve_references `{Runtime} (st : ThreadHeaders) (email : Email)
  : string :=
  if truthy (references st) then
    match PyStr.split (get_or (references st) "") with
    | r0 :: _ => _normalize_message_id r0
    | [] => resolve_message_id st email
    end
  else resolve_message_id st email.

Definition extract_thread_id `{Runtime} (email : Email) : string :=
  let st := scan_headers (headers email) in
  if truthy (in_reply_to st) then get_or (in_reply_to st) ""
  else resolve_references st email.

(** *** Grouping and ordering *)

(** Code that reads the wall clock threads the number of readings made
    so far. *)
Definition Clocked (A : Type) : Type := nat -> A * nat.

Definition ret {A : Type} (a : A) : Clocked A := fun t => (a, t).

Definition bind {A B : Type} (m : Clocked A) (k : A -> Clocked B) : Clocked B :=
  fun t => let (a, t') := m t in k a t'.

Notation "x <- m ;; k" := (bind m (fun x => k))
  (at level 61, m at next level, right associativity).

(** [datetime.now()] *)
Definition now `{Runtime} : Clocked Z := fun t => (clock t, S t).

Fixpoint mapM {A B : Type} (f : A -> Clocked B) (l : list A)
  : Clocked (list B) :=
  match l with
  | [] => ret []
  | x :: r => y <- f x ;; ys <- mapM f r ;; ret (y :: ys)
  end.

(** The value of the first header named [date], if any: the header at
    which the loop of [_get_email_timestamp] returns. *)
Fixpoint find_date (hs : list Header) : option string :=
  match hs with
  | [] => None
  | h :: r =>
      if String.eqb (PyStr.lower (hname h)) "date" then Some (hvalue h)
      else find_date r
  end.

(** [date_str] is read and then left unused: both exits of the function
    return [datetime.now()]. *)
Definition _get_email_timestamp `{Runtime} (email : Email) : Clocked Z :=
  match find_date (headers email) with
  | Some date_str => now
  | None => now
  end.

(** [list.sort(key=...)]: the keys are computed once, front to back, and
    the sort is stable.  [insert_keyed] puts an element in front of the
    first one whose key is not smaller. *)
Fixpoint insert_keyed {A : Type} (p : Z * A) (l : list (Z * A))
  : list (Z * A) :=
  match l with
  | [] => [p]
  | q :: r => if (fst q <? fst p)%Z then q :: insert_keyed p r else p :: q :: r
  end.

Definition stable_sort {A : Type} (l : list (Z * A)) : list (Z * A) :=
  fold_right insert_keyed [] l.

Definition sort_by_key {A : Type} (key : A -> Clocked Z) (l : list A)
  : Clocked (list A) :=
  keys <- mapM key l ;;
  ret (map snd (stable_sort (combine keys l))).

(** A [dict] from thread id to bucket, in insertion order. *)
Definition Threads : Type := list (string * list Email).

(** [if thread_id not in threads: threads[thread_id] = []] followed by
    [threads[thread_id].append(email)]. *)
Fixpoint bucket_append (thread_id : string) (email : Email) (threads : Threads)
  : Threads :=
  match threads with
  | [] => [(thread_id, [email])]
  | (k, b) :: r =>
      if String.eqb k thread_id then (k, (b ++ [email])%list) :: r
      else (k, b) :: bucket_append thread_id email r
  end.

(** The first loop of [group_emails_by_thread]. *)
Definition collect_threads `{Runtime} (emails : list Email) : Threads :=
  fold_left (fun threads email =>
               bucket_append (extract_thread_id email) email threads)
            emails [].

Definition group_emails_by_thread `{Runtime} (emails : list Email)
  : Clocked Threads :=
  mapM (fun kb : string * list Email =>
          sorted <- sort_by_key _get_email_timestamp (snd kb) ;;
          ret (fst kb, sorted))
       (collect_threads emails).

(** [a != b] on two values that are [None] or a [str]. *)
Definition opt_neq (a b : option string) : bool :=
  match a, b with
  | None, None => false
  | Some x, Some y => negb (String.eqb x y)
  | _, _ => true
  end.

Definition get_thread_context `{Runtime} (email : Email)
  (all_emails : list Email) : Clocked (list Email) :=
  let thread_id := extract_thread_id email in
  let thread_emails :=
    filter (fun other_email =>
              String.eqb (extract_thread_id other_email) thread_id)
           all_emails in
  sorted <- sort_by_key _get_email_timestamp thread_emails ;;
  ret (filter (fun e => opt_neq (id e) (id email)) sorted).

(** *** Pattern analysis *)

Record ThreadAnalysis := mkAnalysis {
  thread_length : nat;
  participants : list string;
  response_pattern : list string;
  urgency_escalation : bool;
  question_count : nat;
  action_items : list string
}.

Definition urgency_keywords : list string :=
  ["urgent"; "asap"; "immediate"; "deadline"; "emergency"].

Definition action_phrases : list string :=
  ["please"; "can you"; "need to"; "should we"].

(** [s.add(x)] on a set kept as the list of its elements. *)
Definition set_add (x : string) (s : list string) : list string :=
  if existsb (String.eqb x) s then s else (s ++ [x])%list.

(** The loop variables of [analyze_thread_patterns]: the record under
    construction, whose [participants] is still a set, and
    [previous_sender]. *)
Definition step_analysis (acc : ThreadAnalysis * option string)
  (ie : nat * Email) : ThreadAnalysis * option string :=
  let (analysis, previous_sender) := acc in
  let (i, email) := ie in
  let sender_ := get_or (sender email) "" in
  let body_ := PyStr.lower (get_or (body email) "") in
  let subject_ := PyStr.lower (get_or (subject email) "") in
  let pattern :=
    if truthy previous_sender
       && negb (String.eqb (get_or previous_sender "") sender_)
    then "response" else "continuation" in
  let urgent :=
    existsb (fun keyword =>
               PyStr.contains keyword body_ || PyStr.contains keyword subject_)
            urgency_keywords in
  let requested :=
    existsb (fun phrase => PyStr.contains phrase body_) action_phrases in
  (mkAnalysis
     (thread_length analysis)
     (set_add sender_ (participants analysis))
     (response_pattern analysis ++ [pattern])%list
     (if urgent && (0 <? i)%nat then true else urgency_escalation analysis)
     (question_count analysis + PyStr.count_char "?" body_)
     (if requested
      then (action_items analysis
            ++ [("Email " ++ PyStr.of_nat (i + 1)
                          ++ ": Action requested")%string])%list
      else action_items analysis),
   Some sender_).

(** [enumerate(l)] *)
Definition enumerate {A : Type} (l : list A) : list (nat * A) :=
  combine (seq 0 (length l)) l.

(** [None] stands for the empty dict [{}] returned on an empty thread. *)
Definition analyze_thread_patterns `{Runtime} (thread_emails : list Email)
  : option ThreadAnalysis :=
  match thread_emails with
  | [] => None
  | _ =>
      let init := mkAnalysis (length thread_emails) [] [] false 0 [] in
      let (analysis, _) :=
        fold_left step_analysis (enumerate thread_emails) (init, None) in
      Some (mkAnalysis
              (thread_length analysis)
              (set_iter (participants analysis))
              (response_pattern analysis)
              (urgency_escalation analysis)
              (question_count analysis)
              (action_items analysis))
  end.

(** *** Conversation summary *)

(** [set(...)] of a sequence of strings. *)
Definition set_of (l : list string) : list string :=
  fold_left (fun s x => set_add x s) l [].

Definition get_conversation_summary `{Runtime} (thread_emails : list Email)
  : string :=
  match thread_emails with
  | [] => "No conversation history"
  | [_] => "First message in conversation"
  | _ =>
      let participants_ :=
        set_of (map (fun email => get_or (sender email) "Unknown")
                    thread_emails) in
      let subjects := map (fun email => get_or (subject email) "")
                          thread_emails in
      let key_topics :=
        match subjects with
        | [] => []
        | _ => [_normalize_subject (last subjects "")]
        end in
      let summary :=
        "Conversation with " ++ PyStr.of_nat (length participants_)
        ++ " participants ("
        ++ PyStr.join ", " (firstn 3 (set_iter participants_)) in
      let summary :=
        if (3 <? length participants_)%nat
        then summary ++ " +" ++ PyStr.of_nat (length participants_ - 3)
                     ++ " others"
        else summary in
      let summary :=
        summary ++ "), " ++ PyStr.of_nat (length thread_emails)
                ++ " messages" in
      match key_topics with
      | topic :: _ => summary ++ ". Topic: " ++ PyStr.take 50 topic
      | [] => summary
      end
  end.

(** *** Reply recommendation *)

Record Recommendation := mkRec {
  should_reply : bool;
  reply_urgency : string;
  reply_type : string;
  confidence : float
}.

(** [min(a, b)] on floats: [a] unless [b] is smaller. *)
Definition py_min (a b : float) : float :=
  if PrimFloat.ltb b a then b else a.

Definition reply_indicators : list string :=
  ["?"; "please"; "can you"; "what do you think"].

Definition scheduling_words : list string :=
  ["meeting"; "schedule"; "calendar"].

Definition should_draft_reply `{Runtime} (email : Email)
  (thread_context : list Email) : Recommendation :=
  let thread_analysis :=
    analyze_thread_patterns (thread_context ++ [email])%list in
  let body_ := PyStr.lower (get_or (body email) "") in
  let asked := existsb (fun indicator => PyStr.contains indicator body_)
                       reply_indicators in
  let should_reply_ := if asked then true else false in
  let confidence_ := if asked then 0.8%float else 0.5%float in
  let escalated :=
    match thread_analysis with
    | Some a => urgency_escalation a
    | None => false
    end in
  let reply_urgency_ := if escalated then "high" else "normal" in
  let confidence_ :=
    if escalated then py_min 1.0%float (confidence_ + 0.2)%float
    else confidence_ in
  let reply_type_ :=
    if (5 <? match thread_analysis with
             | Some a => thread_length a | None => 0 end)%nat
    then "summary"
    else if existsb (fun word => PyStr.contains word body_) scheduling_words
    then "scheduling"
    else if (2 <? match thread_analysis with
                  | Some a => question_count a | None => 0 end)%nat
    then "detailed_response"
    else "standard" in
  mkRec should_reply_ reply_urgency_ reply_type_ confidence_.

(** ** AIAnalyzer *)

(** The values a decoded JSON document and an analysis record are made of.
    A [dict] is kept as the list of its items in insertion order. *)
Inductive PyVal : Type :=
| VNone
| VBool (b : bool)
| VInt (z : Z)
| VFloat (f : float)
| VStr (s : string)
| VList (l : list PyVal)
| VDict (d : list (string * PyVal)).

(** Truth value, as tested by [if not basic_analysis]. *)
Definition py_bool (v : PyVal) : bool :=
  match v with
  | VNone => false
  | VBool b => b
  | VInt z => negb (z =? 0)%Z
  | VFloat f => negb (PrimFloat.eqb f 0%float)
  | VStr s => PyStr.nonempty s
  | VList l => match l with [] => false | _ => true end
  | VDict d => match d with [] => false | _ => true end
  end.

(** [d.get(key)] *)
Fixpoint dict_get (key : string) (d : list (string * PyVal)) : option PyVal :=
  match d with
  | [] => None
  | (k, v) :: r => if String.eqb k key then Some v else dict_get key r
  end.

(** [d[key] = v]: an existing key keeps its place. *)
Fixpoint dict_set (key : string) (v : PyVal) (d : list (string * PyVal))
  : list (string * PyVal) :=
  match d with
  | [] => [(key, v)]
  | (k, w) :: r =>
      if String.eqb k key then (k, v) :: r else (k, w) :: dict_set key v r
  end.

(** [s.find(c)] and [s.rfind(c)] for a one-character pattern; [None] is
    the result [-1]. *)
Fixpoint find_char (c : ascii) (s : string) : option nat :=
  match s with
  | EmptyString => None
  | String a r =>
      if Ascii.eqb a c then Some 0
      else match find_char c r with Some n => Some (S n) | None => None end
  end.

Fixpoint rfind_char (c : ascii) (s : string) : option nat :=
  match s with
  | EmptyString => None
  | String a r =>
      match rfind_char c r with
      | Some n => Some (S n)
      | None => if Ascii.eqb a c then Some 0 else None
      end
  end.

(** [s[i:j]] for [0 <= i] and [0 <= j]. *)
Definition slice (i j : nat) (s : string) : string :=
  PyStr.take (j - i) (PyStr.drop i s).

(** [json.loads]: [None] when it raises. *)
Class JsonDecoder := { json_loads : string -> option PyVal }.

(** The language-model client.  [complete sender subject body thread_info]
    stands for building the prompt from these four interpolated values,
    calling [client.messages.create] and reading
    [message.content[0].text]; [None] when any of this raises. *)
Record Client := mkClient {
  complete : string -> string -> string -> string -> option string
}.

Record AIAnalyzer := mkAIAnalyzer {
  client : option Client   (* None without an API key *)
}.

Definition _fallback_analysis : PyVal :=
  VDict [("summary", VStr "AI analysis unavailable");
         ("category", VStr "Unknown");
         ("priority", VStr "Medium");
         ("suggested_action", VStr "NoAction");
         ("urgency_indicators", VList []);
         ("requires_response", VBool false);
         ("estimated_response_time", VNone);
         ("task_description", VNone);
         ("thread_position", VStr "Unknown")].

(** The lines of [thread_info] that [analyze_email] adds for the last
    three messages of a thread context. *)
Fixpoint thread_lines (i : nat) (msgs : list Email) : string :=
  match msgs with
  | [] => ""
  | msg :: r =>
      PyStr.of_nat i ++ ". From: " ++ get_or (sender msg) "Unknown" ++ " - "
      ++ get_or (subject msg) "No subject" ++ String "010" ""
      ++ "   " ++ PyStr.take 200 (get_or (body msg) "") ++ "..."
      ++ String "010" "" ++ thread_lines (S i) r
  end.

(** [l[-3:]] *)
Definition last3 {A : Type} (l : list A) : list A :=
  skipn (length l - 3) l.

Definition thread_info_of (thread_context : option (list Email)) : string :=
  match thread_context with
  | None | Some [] => ""
  | Some ctx =>
      String "010" (String "010" "") ++ "Thread Context ("
      ++ PyStr.of_nat (length ctx) ++ " previous messages):"
      ++ String "010" "" ++ thread_lines 1 (last3 ctx)
  end.

(** The body of the [try] block once the response text is at hand;
    [None] when [json.loads] raises. *)
Definition decode_response `{JsonDecoder} (text : string) : option PyVal :=
  let response_text := PyStr.strip text in
  match find_char "{" response_text, rfind_char "}" response_text with
  | Some json_start, Some e =>
      json_loads (slice json_start (e + 1) response_text)
  | _, _ => json_loads response_text
  end.

Definition analyze_email `{JsonDecoder} (self : AIAnalyzer)
  (sender_ subject_ body_ : string) (thread_context : option (list Email))
  : PyVal :=
  match client self with
  | None => _fallback_analysis
  | Some c =>
      match complete c sender_ subject_ (PyStr.take 1500 body_)
                     (thread_info_of thread_context) with
      | None => _fallback_analysis
      | Some text =>
          match decode_response text with
          | Some v => v
          | None => _fallback_analysis
          end
      end
  end.

(** A call either returns or lets an exception escape. *)
Inductive Outcome (A : Type) : Type :=
| Returns (a : A)
| Raises.
Arguments Returns {A} a.
Arguments Raises {A}.

(** The dict stored under ['thread_context']. *)
Definition thread_context_entry (thread_analysis : option ThreadAnalysis)
  (thread_summary : string) (reply_recommendations : Recommendation) : PyVal :=
  VDict [("thread_length",
          VInt (Z.of_nat match thread_analysis with
                         | Some a => thread_length a | None => 1 end));
         ("participants",
          VList (map VStr match thread_analysis with
                          | Some a => participants a | None => [] end));
         ("conversation_summary", VStr thread_summary);
         ("reply_recommended", VBool (should_reply reply_recommendations));
         ("reply_urgency", VStr (reply_urgency reply_recommendations));
         ("suggested_reply_type", VStr (reply_type reply_recommendations))].

(** The priority adjustment at the end of [analyze_email_with_context]. *)
Definition adjust_priority (thread_analysis : option ThreadAnalysis)
  (reply_recommendations : Recommendation) (d : list (string * PyVal))
  : list (string * PyVal) :=
  if String.eqb (reply_urgency reply_recommendations) "high" then
    dict_set "priority" (VStr "High") d
  else if match thread_analysis with
          | Some a => urgency_escalation a | None => false end then
    match dict_get "priority" d with
    | Some (VStr "Low") => dict_set "priority" (VStr "Medium") d
    | _ => d
    end
  else d.

(** [Returns None] is the result [None]; a decoded value that is true
    without being a dict has no [update] and the call raises. *)
Definition analyze_email_with_context `{Runtime} `{JsonDecoder}
  (self : AIAnalyzer) (email : Email) (all_emails : option (list Email))
  : Clocked (Outcome (option PyVal)) :=
  let basic_analysis :=
    analyze_email self (get_or (sender email) "") (get_or (subject email) "")
                  (get_or (body email) "") None in
  if negb (py_bool basic_analysis) then ret (Returns None)
  else
    match all_emails with
    | None | Some [] => ret (Returns (Some basic_analysis))
    | Some all =>
        thread_context <- get_thread_context email all ;;
        match thread_context with
        | [] => ret (Returns (Some basic_analysis))
        | _ =>
            let thread_summary :=
              get_conversation_summary (thread_context ++ [email])%list in
            let reply_recommendations :=
              should_draft_reply email thread_context in
            let thread_analysis :=
              analyze_thread_patterns (thread_context ++ [email])%list in
            match basic_analysis with
            | VDict d =>
                let d := dict_set "thread_context"
                           (thread_context_entry thread_analysis thread_summary
                                                 reply_recommendations) d in
                ret (Returns (Some (VDict
                       (adjust_priority thread_analysis
                                        reply_recommendations d))))
            | _ => ret Raises
            end
        end
    end.

(** *** Draft replies and bulk suggestions *)

(** The values [generate_draft_reply] interpolates into its prompt. *)
Record DraftRequest := mkDraftRequest {
  dr_tone : string;
  dr_type : string;
  dr_instruction : string;
  dr_sender : string;
  dr_subject : string;
  dr_body : string;
  dr_thread_info : string;
  dr_should_reply : bool;
  dr_urgency : string;
  dr_confidence : float
}.

(** The two other prompts sent through the client: [complete_draft rq]
    and [complete_bulk summaries] stand for building the prompt of
    [generate_draft_reply], resp. [generate_bulk_suggestions], from the
    interpolated values, calling [client.messages.create] and reading
    [message.content[0].text]; [None] when any of this raises. *)
Class PromptReplies := {
  complete_draft : DraftRequest -> option string;
  complete_bulk : string -> option string
}.

Definition type_instructions : list (string * string) :=
  [("standard",
    "Provide a complete, professional response addressing all points");
   ("quick_acknowledgment",
    "Brief acknowledgment that you received the email and will respond soon");
   ("detailed_response", "Comprehensive response with detailed explanations");
   ("scheduling", "Focus on scheduling/calendar coordination");
   ("summary", "Summarize the thread and provide clear next steps");
   ("decline", "Politely decline the request with brief explanation")].

(** [d.get(key, default)] on a dict of strings. *)
Fixpoint lookup_or (key : string) (d : list (string * string))
  (default : string) : string :=
  match d with
  | [] => default
  | (k, v) :: r => if String.eqb k key then v else lookup_or key r default
  end.

(** The lines [generate_draft_reply] adds for the last three messages of
    the thread context. *)
Fixpoint draft_thread_lines (i : nat) (msgs : list Email) : string :=
  match msgs with
  | [] => ""
  | msg :: r =>
      PyStr.of_nat i ++ ". From: " ++ get_or (sender msg) "Unknown"
      ++ String "010" "" ++ "   Subject: " ++ get_or (subject msg) "No subject"
      ++ String "010" "" ++ "   " ++ PyStr.take 300 (get_or (body msg) "")
      ++ "..." ++ String "010" (String "010" "")
      ++ draft_thread_lines (S i) r
  end.

(** [email.get('id')] as a value. *)
Definition py_id (email : Email) : PyVal :=
  match id email with Some s => VStr s | None => VNone end.

(** What [generate_draft_reply] sends to the client, given the thread
    context it found. *)
Definition draft_request `{Runtime} (email : Email)
  (thread_context : list Email) (reply_tone reply_type_ : string)
  : DraftRequest :=
  let thread_summary :=
    match thread_context with
    | [] => "No conversation history"
    | _ => get_conversation_summary (thread_context ++ [email])%list
    end in
  let reply_recommendations :=
    match thread_context with
    | [] => mkRec true "normal" "standard" 0.5%float
    | _ => should_draft_reply email thread_context
    end in
  let reply_type_ :=
    if String.eqb reply_type_ "auto" then reply_type reply_recommendations
    else reply_type_ in
  let thread_info :=
    match thread_context with
    | [] => ""
    | _ =>
        String "010" (String "010" "") ++ "Conversation Context: "
        ++ thread_summary ++ String "010" (String "010" "")
        ++ "Recent Messages in Thread:" ++ String "010" ""
        ++ draft_thread_lines 1 (last3 thread_context)
    end in
  let instruction :=
    lookup_or reply_type_ type_instructions
      (lookup_or "standard" type_instructions "") in
  mkDraftRequest reply_tone reply_type_ instruction
    (get_or (sender email) "Unknown") (get_or (subject email) "No Subject")
    (get_or (body email) "") thread_info
    (should_reply reply_recommendations)
    (reply_urgency reply_recommendations)
    (confidence reply_recommendations).

(** [None] is the result [None], also taken when anything in the [try]
    block raises: the call to the client, [json.loads], or the item
    assignment on a decoded value that is not a dict. *)
Definition generate_draft_reply `{Runtime} `{JsonDecoder} `{PromptReplies}
  (self : AIAnalyzer) (email : Email) (all_emails : option (list Email))
  (reply_tone reply_type_ : string) : Clocked (option PyVal) :=
  match client self with
  | None => ret None
  | Some _ =>
      thread_context <-
        match all_emails with
        | None | Some [] => ret []
        | Some all => get_thread_context email all
        end ;;
      match complete_draft
              (draft_request email thread_context reply_tone reply_type_) with
      | None => ret None
      | Some text =>
          let response_text := PyStr.strip text in
          match find_char "{" response_text, rfind_char "}" response_text with
          | Some json_start, Some e =>
              match json_loads (slice json_start (e + 1) response_text) with
              | Some (VDict d) =>
                  ret (Some (VDict (dict_set "original_email_id"
                                             (py_id email) d)))
              | _ => ret None
              end
          | _, _ => ret None
          end
      end
  end.

(** One line of the prompt of [generate_bulk_suggestions]. *)
Definition bulk_line (ie : nat * Email) : string :=
  let (i, email) := ie in
  PyStr.of_nat (i + 1) ++ ". From: " ++ get_or (sender email) "Unknown"
  ++ " | Subject: " ++ get_or (subject email) "No subject"
  ++ " | Body: " ++ PyStr.take 100 (get_or (body email) "") ++ "...".

Definition no_suggestions (keys : list string) : PyVal :=
  VDict (map (fun k => (k, VList [])) keys).

Definition generate_bulk_suggestions `{JsonDecoder} `{PromptReplies}
  (self : AIAnalyzer) (emails : list Email) : PyVal :=
  match client self with
  | None => no_suggestions ["delete"; "archive"; "unsubscribe"]
  | Some _ =>
      let failed :=
        no_suggestions ["delete"; "archive"; "unsubscribe"; "review";
                        "priority"] in
      let email_summaries := map bulk_line (enumerate (firstn 20 emails)) in
      match complete_bulk (PyStr.join (String "010" "") email_summaries) with
      | None => failed
      | Some text =>
          let response_text := PyStr.strip text in
          match find_char "{" response_text, rfind_char "}" response_text with
          | Some json_start, Some e =>
              match json_loads (slice json_start (e + 1) response_text) with
              | Some v => v
              | None => failed
              end
          | _, _ => failed
          end
      end
  end.

(** ** Notions the properties are stated with *)

(** The value of the last header whose lower-cased name is [nm]: the one
    a loop that overwrites on every match is left with. *)
Fixpoint last_header (nm : string) (hs : list Header) : option string :=
  match hs with
  | [] => None
  | h :: r =>
      match last_header nm r with
      | Some v => Some v
      | None =>
          if String.eqb (PyStr.lower (hname h)) nm then Some (hvalue h)
          else None
      end
  end.

(** The message with every header named [nm] taken away. *)
Definition without_header (nm : string) (email : Email) : Email :=
  mkEmail (id email) (sender email) (subject email) (body email)
          (filter (fun h => negb (String.eqb (PyStr.lower (hname h)) nm))
                  (headers email)).

(** [p] occurs in [s]. *)
Definition occurs (p s : string) : Prop :=
  exists pre post, s = pre ++ p ++ post.

(** [p] occurs in [s] up to letter case. *)
Definition occurs_ci (p s : string) : Prop :=
  exists pre mid post,
    s = pre ++ mid ++ post /\ PyStr.lower mid = PyStr.lower p.

(** The sender of a message as the pattern analysis reads it, and as the
    summary reads it. *)
Definition sender_of (email : Email) : string := get_or (sender email) "".
Definition sender_name (email : Email) : string :=
  get_or (sender email) "Unknown".

(** The three ways the classifier call of [analyze_email] fails: no
    client, an exception before the response text is at hand, a response
    that does not decode. *)
Definition classifier_fails `{JsonDecoder} (self : AIAnalyzer)
  (email : Email) : Prop :=
  match client self with
  | None => True
  | Some c =>
      match complete c (get_or (sender email) "") (get_or (subject email) "")
                     (PyStr.take 1500 (get_or (body email) "")) "" with
      | None => True
      | Some text => decode_response text = None
      end
  end.

(** Resolution from the Message-ID header on, and from the References
    header on, in terms of the headers the message carries. *)
Definition from_message_id `{Runtime} (email : Email) : string :=
  match last_header "message-id" (headers email) with
  | Some m =>
      if PyStr.nonempty (_normalize_message_id m) then _normalize_message_id m
      else subject_key email
  | None => subject_key email
  end.

Definition from_references `{Runtime} (email : Email) : string :=
  match last_header "references" (headers email) with
  | Some refs =>
      match PyStr.split refs with
      | r0 :: _ => _normalize_message_id r0
      | [] => from_message_id email
      end
  | None => from_message_id email
  end.

(** Every message of a bucket resolves to the key of the bucket. *)
Definition well_keyed `{Runtime} (threads : Threads) : Prop :=
  forall k b e, In (k, b) threads -> In e b -> extract_thread_id e = k.

(** Keys that never decrease from front to back. *)
Fixpoint ascending {A : Type} (l : list (Z * A)) : Prop :=
  match l with
  | [] => True
  | p :: r => (forall q, In q r -> (fst p <= fst q)%Z) /\ ascending r
  end.

(** A runtime to evaluate examples with: the hash of a string is its
    length, a set is listed in insertion order, the clock advances by one
    microsecond per reading. *)
Definition example_runtime : Runtime :=
  {| py_hash := fun s => Z.of_nat (String.length s);
     set_iter := fun l => l;
     set_iter_perm := fun l => Permutation_refl l;
     clock := fun n => Z.of_nat n |}.

(** A decoder to evaluate examples with: it accepts the empty object
    only. *)
Definition example_decoder : JsonDecoder :=
  {| json_loads := fun s => if String.eqb s "{}" then Some (VDict [])
                            else None |}.

(** Messages to evaluate examples with: a request, a reply to it, and
    an unrelated message. *)
Definition msg_a : Email :=
  mkEmail (Some "1") (Some "ann@x") (Some "Budget") (Some "Friday")
          [mkHeader "Message-ID" "<a@x>"].
Definition msg_b : Email :=
  mkEmail (Some "2") (Some "bob@x") (Some "Re: Budget") (Some "ROI?")
          [mkHeader "In-Reply-To" "<a@x>"].
Definition msg_c : Email :=
  mkEmail (Some "3") (Some "cy@x") (Some "Lunch") (Some "Noon")
          [mkHeader "Message-ID" "<c@x>"].

(** Two replies to [msg_a] whose Date headers are a day apart, the later
    one fetched first. *)
Definition dated_late : Email :=
  mkEmail (Some "5") (Some "bob@x") (Some "Re: Budget") (Some "second")
          [mkHeader "In-Reply-To" "<a@x>";
           mkHeader "Date" "Tue, 02 Jan 2024 10:00:00 +0000"].
Definition dated_early : Email :=
  mkEmail (Some "4") (Some "cy@x") (Some "Re: Budget") (Some "first")
          [mkHeader "In-Reply-To" "<a@x>";
           mkHeader "Date" "Mon, 01 Jan 2024 10:00:00 +0000"].

(** A message whose sender is the empty string, as a From header
    without a value gives. *)
Definition msg_anon : Email :=
  mkEmail (Some "0") (Some "") (Some "Budget") (Some "see attachment")
          [mkHeader "Message-ID" "<a@x>"].

(** The response pattern of the messages [l] that follow a message sent
    by [prev] ([None] at the start of a thread). *)
Fixpoint patterns_after (prev : option string) (l : list Email)
  : list string :=
  match l with
  | [] => []
  | e :: r =>
      (if truthy prev && negb (String.eqb (get_or prev "") (sender_of e))
       then "response" else "continuation")
      :: patterns_after (Some (sender_of e)) r
  end.

(** A reply to [msg_a] whose Subject header is empty, and one that
    raises the urgency. *)
Definition msg_bare : Email :=
  mkEmail (Some "6") (Some "bob@x") (Some "") (Some "ok")
          [mkHeader "In-Reply-To" "<a@x>"].
Definition msg_urgent : Email :=
  mkEmail (Some "7") (Some "bob@x") (Some "Re: Budget")
          (Some "This is urgent.") [mkHeader "In-Reply-To" "<a@x>"].

(** The fallback record with the given priority and further items at its
    end. *)
Definition fallback_with (priority : string) (extra : list (string * PyVal))
  : PyVal :=
  VDict ([("summary", VStr "AI analysis unavailable");
          ("category", VStr "Unknown");
          ("priority", VStr priority);
          ("suggested_action", VStr "NoAction");
          ("urgency_indicators", VList []);
          ("requires_response", VBool false);
          ("estimated_response_time", VNone);
          ("task_description", VNone);
          ("thread_position", VStr "Unknown")] ++ extra)%list.

(** Every character of [s] passes the test [P]. *)
Fixpoint all_chars (P : ascii -> bool) (s : string) : bool :=
  match s with
  | EmptyString => true
  | String c r => P c && all_chars P r
  end.

(** A character that [_normalize_message_id] keeps. *)
Definition id_char (c : ascii) : bool :=
  negb (Ascii.eqb c "<" || Ascii.eqb c ">" || PyStr.isspace c).

(** The message carries none of the three threading headers. *)
Definition no_threading_headers (email : Email) : Prop :=
  last_header "in-reply-to" (headers email) = None /\
  last_header "references" (headers email) = None /\
  last_header "message-id" (headers email) = None.

(** The wall clock does not run backwards. *)
Definition steady_clock `{Runtime} : Prop :=
  forall i j, i <= j -> (clock i <= clock j)%Z.

(** The message resolves to the thread key [k]. *)
Definition in_thread `{Runtime} (k : string) (e : Email) : bool :=
  String.eqb (extract_thread_id e) k.

(** What the first loop of [group_emails_by_thread] keeps true after
    the messages [seen]: keys are distinct, a bucket holds the messages
    seen so far that resolve to its key, in the order seen, every message
    seen has its bucket, and every bucket has a message. *)
Definition collected `{Runtime} (threads : Threads) (seen : list Email) : Prop :=
  NoDup (map fst threads) /\
  (forall k b, In (k, b) threads -> b = filter (in_thread k) seen) /\
  (forall e, In e seen -> In (extract_thread_id e) (map fst threads)) /\
  (forall k, In k (map fst threads) ->
             exists e, In e seen /\ extract_thread_id e = k).

(** The tests [analyze_thread_patterns] makes on one message: an
    urgency keyword in the body or the subject, an action phrase in the
    body; and the label of the action item of the message at index [i]. *)
Definition is_urgent (e : Email) : bool :=
  existsb (fun keyword =>
             PyStr.contains keyword (PyStr.lower (get_or (body e) ""))
             || PyStr.contains keyword (PyStr.lower (get_or (subject e) "")))
          urgency_keywords.

Definition requests_action (e : Email) : bool :=
  existsb (fun phrase =>
             PyStr.contains phrase (PyStr.lower (get_or (body e) "")))
          action_phrases.

Definition action_label (i : nat) : string :=
  "Email " ++ PyStr.of_nat (i + 1) ++ ": Action requested".

(** The number of question marks in the body of a message. *)
Definition question_marks (e : Email) : nat :=
  PyStr.count_char "?" (get_or (body e) "").

(** The body of the message holds one of the scheduling words. *)
Definition mentions_scheduling (e : Email) : bool :=
  existsb (fun word =>
             PyStr.contains word (PyStr.lower (get_or (body e) "")))
          scheduling_words.

(** A decoder to evaluate examples with: it accepts the empty object
    and a one-element array. *)
Definition array_decoder : JsonDecoder :=
  {| json_loads := fun s =>
       if String.eqb s "{}" then Some (VDict [])
       else if String.eqb s "[1]" then Some (VList [VInt 1])
       else None |}.

(** A client that always answers with the given text. *)
Definition canned_client (text : string) : AIAnalyzer :=
  mkAIAnalyzer (Some (mkClient (fun _ _ _ _ => Some text))).

(** The value is a dict. *)
Definition is_dict (v : PyVal) : bool :=
  match v with VDict _ => true | _ => false end.

(** What [analyze_email_with_context] starts from: the result of
    [analyze_email] on the message, and the thread context found in the
    list. *)
Definition base_analysis `{JsonDecoder} (self : AIAnalyzer) (email : Email)
  : PyVal :=
  analyze_email self (get_or (sender email) "") (get_or (subject email) "")
                (get_or (body email) "") None.

Definition context_of `{Runtime} (email : Email)
  (all_emails : option (list Email)) (t : nat) : list Email :=
  fst (get_thread_context email (get_or all_emails []) t).

(** The character [c] does not occur in [s]. *)
Definition lacks (c : ascii) (s : string) : bool :=
  all_chars (fun a => negb (Ascii.eqb a c)) s.

(** What [generate_bulk_suggestions] reads of a message. *)
Definition bulk_view (e : Email) : string * string * string :=
  (get_or (sender e) "Unknown", get_or (subject e) "No subject",
   PyStr.take 100 (get_or (body e) "")).

(** Prompt replies to evaluate examples with: every draft request is
    answered with an empty object inside a sentence, every bulk request
    with nothing usable. *)
Definition example_replies : PromptReplies :=
  {| complete_draft := fun _ => Some "Here you go: {}";
     complete_bulk := fun _ => Some "no idea" |}.

(** Every white-space character of [s] is a blank that follows a
    character which is not white space ([in_run] tells whether the
    character before [s] was white space). *)
Fixpoint single_spaced (in_run : bool) (s : string) : bool :=
  match s with
  | EmptyString => true
  | String c r =>
      if PyStr.isspace c
      then negb in_run && Ascii.eqb c " " && single_spaced true r
      else single_spaced false r
  end.

(** [str.lower] leaves the character as it is. *)
Definition is_lower (c : ascii) : bool := Ascii.eqb (PyStr.lower_char c) c.

(** * Properties *)

(** ** The resolver *)

Lemma fold_scan_header (hs : list Header) (st : ThreadHeaders) :
  fold_left scan_header hs st =
  mkTH (match last_header "in-reply-to" hs with
        | Some v => Some (_normalize_message_id v)
        | None => in_reply_to st
        end)
       (match last_header "references" hs with
        | Some v => Some v
        | None => references st
        end)
       (match last_header "message-id" hs with
        | Some v => Some (_normalize_message_id v)
        | None => message_id st
        end).
Proof.
  revert st; induction hs as [|h r IH]; intros [i f m]; [reflexivity|].
  cbn [fold_left last_header]. rewrite IH. unfold scan_header.
  destruct (last_header "in-reply-to" r), (last_header "references" r),
    (last_header "message-id" r);
    destruct (String.eqb_spec (PyStr.lower (hname h)) "message-id") as [E|E];
    try (rewrite E; reflexivity);
    destruct (String.eqb_spec (PyStr.lower (hname h)) "in-reply-to") as [E1|E1];
    try (rewrite E1; reflexivity);
    destruct (String.eqb_spec (PyStr.lower (hname h)) "references") as [E2|E2];
    try (rewrite E2; reflexivity); reflexivity.
Qed.

Lemma scan_headers_spec (hs : list Header) :
  scan_headers hs =
  mkTH (option_map _normalize_message_id (last_header "in-reply-to" hs))
       (last_header "references" hs)
       (option_map _normalize_message_id (last_header "message-id" hs)).
Proof.
  unfold scan_headers. rewrite fold_scan_header. cbn.
  destruct (last_header "in-reply-to" hs), (last_header "references" hs),
    (last_header "message-id" hs); reflexivity.
Qed.

Lemma nonempty_true_iff (s : string) : PyStr.nonempty s = true <-> s <> "".
Proof. destruct s; cbn; split; congruence. Qed.

Lemma nonempty_false_iff (s : string) : PyStr.nonempty s = false <-> s = "".
Proof. destruct s; cbn; split; congruence. Qed.

Lemma last_header_without_same (nm : string) (email : Email) :
  last_header nm (headers (without_header nm email)) = None.
Proof.
  cbn. induction (headers email) as [|h r IH]; [reflexivity|]. cbn.
  destruct (String.eqb (PyStr.lower (hname h)) nm) eqn:E; cbn; [exact IH|].
  rewrite IH, E. reflexivity.
Qed.

Lemma last_header_without_other (nm nm' : string) (email : Email) :
  nm <> nm' ->
  last_header nm' (headers (without_header nm email))
  = last_header nm' (headers email).
Proof.
  intros D. cbn. induction (headers email) as [|h r IH]; [reflexivity|]. cbn.
  destruct (String.eqb_spec (PyStr.lower (hname h)) nm) as [E|E]; cbn;
    rewrite IH; [|reflexivity].
  destruct (last_header nm' r); [reflexivity|].
  destruct (String.eqb_spec (PyStr.lower (hname h)) nm'); congruence.
Qed.

Lemma extract_thread_id_stages `{Runtime} (email : Email) :
  extract_thread_id email =
  match last_header "in-reply-to" (headers email) with
  | Some v =>
      if PyStr.nonempty (_normalize_message_id v) then _normalize_message_id v
      else from_references email
  | None => from_references email
  end.
Proof.
  assert (T : resolve_references (scan_headers (headers email)) email
              = from_references email).
  { unfold resolve_references, resolve_message_id, from_references,
      from_message_id.
    rewrite scan_headers_spec. cbn.
    destruct (last_header "references" (headers email)) as [refs|],
      (last_header "message-id" (headers email)) as [m|]; cbn;
      try reflexivity; destruct refs; reflexivity. }
  unfold extract_thread_id. rewrite T, scan_headers_spec. cbn.
  destruct (last_header "in-reply-to" (headers email)); reflexivity.
Qed.

Lemma from_message_id_without `{Runtime} (nm : string) (email : Email) :
  nm <> "message-id" ->
  from_message_id (without_header nm email) = from_message_id email.
Proof.
  intros D. unfold from_message_id.
  rewrite (last_header_without_other nm "message-id" email D). reflexivity.
Qed.

Lemma from_references_without `{Runtime} (nm : string) (email : Email) :
  nm <> "message-id" -> nm <> "references" ->
  from_references (without_header nm email) = from_references email.
Proof.
  intros D1 D2. unfold from_references.
  rewrite (last_header_without_other nm "references" email D2),
    (from_message_id_without nm email D1). reflexivity.
Qed.

(** C3, as amended.  When the In-Reply-To header of a message (the last
    one, should it carry several) has a normalized value that is not
    empty, [extract_thread_id] returns that normalized value, whatever
    References header the message carries besides. *)
Theorem resolver_prefers_in_reply_to `{Runtime} (email : Email)
  (irt refs : string) :
  last_header "in-reply-to" (headers email) = Some irt ->
  last_header "references" (headers email) = Some refs ->
  _normalize_message_id irt <> "" ->
  extract_thread_id email = _normalize_message_id irt.
Proof.
  intros Hi _ Hn. rewrite extract_thread_id_stages, Hi.
  apply nonempty_true_iff in Hn. rewrite Hn. reflexivity.
Qed.

(** C3 as written fails: a message with In-Reply-To [<>] and References
    [<r@x>] carries both headers, and is keyed by the References value,
    not by the (empty) normalized In-Reply-To value. *)
Lemma resolver_priority_counterexample :
  let email := mkEmail (Some "1") (Some "a@x") (Some "Re: hi") (Some "")
                 [mkHeader "In-Reply-To" "<>"; mkHeader "References" "<r@x>"] in
  last_header "in-reply-to" (headers email) = Some "<>" /\
  last_header "references" (headers email) = Some "<r@x>" /\
  @extract_thread_id example_runtime email = _normalize_message_id "<r@x>" /\
  @extract_thread_id example_runtime email <> _normalize_message_id "<>".
Proof. cbv zeta. repeat split. vm_compute. discriminate. Qed.

Lemma resolver_prefers_in_reply_to_witness :
  let email := mkEmail (Some "2") (Some "b@x") (Some "Re: hi") (Some "")
                 [mkHeader "In-Reply-To" "<a@x>";
                  mkHeader "References" "<r@x> <a@x>"] in
  @extract_thread_id example_runtime email = "a@x".
Proof.
  cbv zeta.
  apply (@resolver_prefers_in_reply_to example_runtime _ "<a@x>" "<r@x> <a@x>");
    [reflexivity | reflexivity | vm_compute; discriminate].
Defined.

(** C10.  A header whose normalized value is empty counts as absent.
    When the In-Reply-To header normalizes to the empty string, the key is
    the one found from the References header on (first token of
    References, else Message-ID, else the subject key), which is also the
    key of the message without its In-Reply-To headers.  Likewise when the
    Message-ID header normalizes to the empty string the key is that of
    the message without its Message-ID headers, and it is the subject key
    when neither In-Reply-To nor References is there. *)
Theorem empty_header_is_skipped `{Runtime} (email : Email) :
  (forall v,
      last_header "in-reply-to" (headers email) = Some v ->
      _normalize_message_id v = "" ->
      extract_thread_id email = from_references email /\
      extract_thread_id email
      = extract_thread_id (without_header "in-reply-to" email)) /\
  (forall m,
      last_header "message-id" (headers email) = Some m ->
      _normalize_message_id m = "" ->
      extract_thread_id email
      = extract_thread_id (without_header "message-id" email) /\
      (last_header "in-reply-to" (headers email) = None ->
       last_header "references" (headers email) = None ->
       extract_thread_id email = subject_key email)).
Proof.
  split.
  - intros v Hv Hn.
    rewrite (extract_thread_id_stages (without_header "in-reply-to" email)),
      last_header_without_same, extract_thread_id_stages, Hv, Hn.
    cbn [PyStr.nonempty]. split; [reflexivity|].
    symmetry. apply from_references_without; discriminate.
  - intros m Hm Hn. split.
    + rewrite (extract_thread_id_stages (without_header "message-id" email)),
        extract_thread_id_stages.
      rewrite (last_header_without_other "message-id" "in-reply-to" email)
        by discriminate.
      assert (F : from_references (without_header "message-id" email)
                  = from_references email).
      { unfold from_references, from_message_id.
        rewrite (last_header_without_other "message-id" "references" email)
          by discriminate.
        rewrite last_header_without_same, Hm, Hn. reflexivity. }
      rewrite F. reflexivity.
    + intros Hi Hr. rewrite extract_thread_id_stages, Hi.
      unfold from_references, from_message_id. rewrite Hr, Hm, Hn. reflexivity.
Qed.

Lemma empty_header_is_skipped_witness :
  let email := mkEmail (Some "3") (Some "c@x") (Some "Fwd: plans") (Some "")
                 [mkHeader "Message-ID" "<m@x>"; mkHeader "In-Reply-To" " <> "]
  in
  @extract_thread_id example_runtime email = "m@x" /\
  (let bare := mkEmail (Some "4") (Some "c@x") (Some "Fwd: plans") (Some "")
                 [mkHeader "Message-ID" "< >"] in
   @extract_thread_id example_runtime bare = "subject-5").
Proof.
  cbv zeta. split.
  - destruct (@empty_header_is_skipped example_runtime
                (mkEmail (Some "3") (Some "c@x") (Some "Fwd: plans") (Some "")
                   [mkHeader "Message-ID" "<m@x>";
                    mkHeader "In-Reply-To" " <> "])) as [A _].
    destruct (A " <> " eq_refl eq_refl) as [E _].
    rewrite E. reflexivity.
  - destruct (@empty_header_is_skipped example_runtime
                (mkEmail (Some "4") (Some "c@x") (Some "Fwd: plans") (Some "")
                   [mkHeader "Message-ID" "< >"])) as [_ B].
    destruct (B "< >" eq_refl eq_refl) as [_ E].
    rewrite (E eq_refl eq_refl). reflexivity.
Defined.

(** ** Grouping *)

Lemma mapM_length {A B : Type} (f : A -> Clocked B) (l : list A) (t : nat) :
  length (fst (mapM f l t)) = length l.
Proof.
  revert t; induction l as [|x r IH]; intros t; [reflexivity|].
  cbn. unfold bind. destruct (f x t) as [y t1].
  specialize (IH t1). destruct (mapM f r t1) as [ys t2]. cbn in *.
  now rewrite IH.
Qed.

Section StableSort.
Context {A : Type}.

Lemma insert_keyed_perm (p : Z * A) (l : list (Z * A)) :
  Permutation (insert_keyed p l) (p :: l).
Proof.
  induction l as [|q r IH]; cbn; [reflexivity|].
  destruct (fst q <? fst p)%Z; [|reflexivity].
  rewrite IH. apply perm_swap.
Qed.

Lemma stable_sort_perm (l : list (Z * A)) : Permutation (stable_sort l) l.
Proof.
  induction l as [|p r IH]; cbn; [reflexivity|].
  rewrite insert_keyed_perm. now constructor.
Qed.

Lemma map_snd_combine (keys : list Z) (l : list A) :
  length keys = length l -> map snd (combine keys l) = l.
Proof.
  revert keys; induction l as [|x r IH]; intros [|k ks] E;
    cbn in *; try congruence.
  f_equal. apply IH. congruence.
Qed.

Lemma sort_by_key_perm (key : A -> Clocked Z) (l : list A) (t : nat) :
  Permutation (fst (sort_by_key key l t)) l.
Proof.
  unfold sort_by_key, bind, ret.
  pose proof (mapM_length key l t) as L.
  destruct (mapM key l t) as [keys t1]. cbn in *.
  rewrite (Permutation_map snd (stable_sort_perm (combine keys l))).
  now rewrite map_snd_combine.
Qed.
End StableSort.

Lemma bucket_append_keys (k : string) (e : Email) (threads : Threads) :
  forall k', In k' (map fst (bucket_append k e threads))
             <-> k' = k \/ In k' (map fst threads).
Proof.
  induction threads as [|[k0 b0] r IH]; intros k'; cbn.
  - intuition congruence.
  - destruct (String.eqb_spec k0 k) as [->|D]; cbn; [intuition congruence|].
    rewrite IH. intuition.
Qed.

Lemma bucket_append_nodup (k : string) (e : Email) (threads : Threads) :
  NoDup (map fst threads) -> NoDup (map fst (bucket_append k e threads)).
Proof.
  induction threads as [|[k0 b0] r IH]; cbn; intros N.
  - constructor; [intros []|constructor].
  - inversion N as [|? ? Hn Hr]; subst.
    destruct (String.eqb_spec k0 k) as [->|D]; cbn; [now constructor|].
    constructor; [|now apply IH].
    rewrite bucket_append_keys. intros [->|I]; [congruence|contradiction].
Qed.

Lemma bucket_append_perm (k : string) (e : Email) (threads : Threads) :
  Permutation (concat (map snd (bucket_append k e threads)))
              (e :: concat (map snd threads)).
Proof.
  induction threads as [|[k0 b0] r IH]; cbn; [reflexivity|].
  destruct (String.eqb k0 k); cbn.
  - rewrite <- app_assoc. cbn.
    symmetry. apply Permutation_middle.
  - rewrite IH. symmetry. apply Permutation_middle.
Qed.

Lemma bucket_append_well_keyed `{Runtime} (e : Email) (threads : Threads) :
  well_keyed threads ->
  well_keyed (bucket_append (extract_thread_id e) e threads).
Proof.
  induction threads as [|[k0 b0] r IH]; intros W k b x; cbn.
  - intros [E|[]] I. inversion E; subst. destruct I as [->|[]]. reflexivity.
  - destruct (String.eqb_spec k0 (extract_thread_id e)) as [E|D]; cbn.
    + intros [Q|I] Ix.
      * inversion Q; subst. apply in_app_or in Ix as [Ix|[->|[]]];
          [|reflexivity].
        apply (W _ b0 x); [left; reflexivity|exact Ix].
      * apply (W k b x); [right; exact I|exact Ix].
    + intros [Q|I] Ix.
      * inversion Q; subst. apply (W k b x); [left; reflexivity|exact Ix].
      * apply (IH (fun k b e Hi He => W k b e (or_intror Hi) He) k b x I Ix).
Qed.

Lemma collect_from `{Runtime} (emails : list Email) (threads : Threads) :
  let step := fun threads email =>
                bucket_append (extract_thread_id email) email threads in
  NoDup (map fst threads) -> well_keyed threads ->
  NoDup (map fst (fold_left step emails threads)) /\
  well_keyed (fold_left step emails threads) /\
  Permutation (concat (map snd (fold_left step emails threads)))
              (concat (map snd threads) ++ emails).
Proof.
  cbv zeta. revert threads; induction emails as [|e r IH]; intros threads N W.
  - cbn. rewrite app_nil_r. auto.
  - cbn [fold_left].
    destruct (IH _ (bucket_append_nodup _ e threads N)
                 (bucket_append_well_keyed e threads W)) as (N' & W' & P').
    repeat split; try assumption.
    rewrite P', bucket_append_perm. apply Permutation_middle.
Qed.

(** Sorting the buckets keeps the keys and permutes each bucket. *)
Lemma sort_buckets `{Runtime} (threads : Threads) (t : nat) :
  Forall2 (fun kb kb' : string * list Email =>
             fst kb' = fst kb /\ Permutation (snd kb') (snd kb))
          threads
          (fst (mapM (fun kb : string * list Email =>
                        sorted <- sort_by_key _get_email_timestamp (snd kb) ;;
                        ret (fst kb, sorted))
                     threads t)).
Proof.
  revert t; induction threads as [|[k b] r IH]; intros t; [constructor|].
  cbn [mapM]. unfold bind at 1 2.
  pose proof (sort_by_key_perm _get_email_timestamp b t) as P.
  cbn [snd fst]. destruct (sort_by_key _get_email_timestamp b t) as [sb t1].
  unfold ret at 1. unfold bind.
  specialize (IH t1). destruct (mapM _ r t1) as [ys t2]. cbn in *.
  constructor; [split; [reflexivity|exact P]|exact IH].
Qed.

Lemma Forall2_buckets_keys (l l' : Threads) :
  Forall2 (fun kb kb' : string * list Email =>
             fst kb' = fst kb /\ Permutation (snd kb') (snd kb)) l l' ->
  map fst l' = map fst l /\
  Permutation (concat (map snd l')) (concat (map snd l)) /\
  (forall k b', In (k, b') l' -> exists b, In (k, b) l /\ Permutation b' b).
Proof.
  induction 1 as [|[k b] [k' b'] l l' [E P] F (Ek & Pc & Hin)]; cbn in *.
  - repeat split; auto. intros ? ? [].
  - subst k'. repeat split.
    + now rewrite Ek.
    + now apply Permutation_app.
    + intros k0 b0 [Q|I].
      * inversion Q; subst. exists b. auto.
      * destruct (Hin _ _ I) as (b1 & I1 & P1). exists b1. auto.
Qed.

Lemma group_invariants `{Runtime} (emails : list Email) (t : nat) :
  let threads := fst (group_emails_by_thread emails t) in
  NoDup (map fst threads) /\ well_keyed threads /\
  Permutation (concat (map snd threads)) emails.
Proof.
  cbv zeta. unfold group_emails_by_thread, Threads.
  destruct (collect_from emails [] (NoDup_nil _)
              (fun k b e (I : In (k, b) []) => match I with end))
    as (N & W & P).
  fold (collect_threads emails) in N, W, P.
  destruct (Forall2_buckets_keys _ _ (sort_buckets (collect_threads emails) t))
    as (Ek & Pc & Hin).
  repeat split.
  - now rewrite Ek.
  - intros k b' e I Ie. destruct (Hin _ _ I) as (b & Ib & Pb).
    apply (W k b e Ib). now apply (Permutation_in _ Pb).
  - now rewrite Pc, P.
Qed.

(** C4.  The buckets of [group_emails_by_thread] have distinct keys, two
    buckets at different places share no message, and the buckets laid end
    to end are a rearrangement of the input: every message of the input
    is in exactly one bucket, as often as in the input. *)
Theorem grouping_partitions `{Runtime} (emails : list Email) (t : nat) :
  let threads := fst (group_emails_by_thread emails t) in
  NoDup (map fst threads) /\
  Permutation (concat (map snd threads)) emails /\
  (forall i j k1 b1 k2 b2 e,
      i <> j ->
      nth_error threads i = Some (k1, b1) ->
      nth_error threads j = Some (k2, b2) ->
      In e b1 -> ~ In e b2).
Proof.
  cbv zeta. destruct (group_invariants emails t) as (N & W & P).
  repeat split; try assumption.
  intros i j k1 b1 k2 b2 e D Hi Hj I1 I2.
  pose proof (W _ _ _ (nth_error_In _ _ Hi) I1) as E1.
  pose proof (W _ _ _ (nth_error_In _ _ Hj) I2) as E2.
  apply D. apply (proj1 (NoDup_nth_error _) N).
  - rewrite length_map. apply nth_error_Some. congruence.
  - rewrite !nth_error_map, Hi, Hj. cbn. congruence.
Qed.

Lemma grouping_partitions_witness :
  fst (@group_emails_by_thread example_runtime [msg_a; msg_c; msg_b] 0)
  = [("a@x", [msg_a; msg_b]); ("c@x", [msg_c])] /\ ~ In msg_a [msg_c].
Proof.
  split; [reflexivity|].
  destruct (@grouping_partitions example_runtime [msg_a; msg_c; msg_b] 0)
    as (_ & _ & D).
  apply (D 0 1 "a@x" [msg_a; msg_b] "c@x" [msg_c] msg_a);
    [lia | reflexivity | reflexivity | left; reflexivity].
Defined.

(** ** Ordering inside a bucket *)

Lemma get_email_timestamp_now `{Runtime} (email : Email) (t : nat) :
  _get_email_timestamp email t = (clock t, S t).
Proof. unfold _get_email_timestamp. now destruct (find_date (headers email)). Qed.

Lemma mapM_timestamps `{Runtime} (l : list Email) (t : nat) :
  mapM _get_email_timestamp l t = (map clock (seq t (length l)), t + length l).
Proof.
  revert t; induction l as [|e r IH]; intros t; cbn.
  - unfold ret. f_equal. lia.
  - unfold bind. rewrite get_email_timestamp_now, IH. unfold ret.
    f_equal. lia.
Qed.

Lemma stable_sort_ascending {A : Type} (l : list (Z * A)) :
  ascending l -> stable_sort l = l.
Proof.
  induction l as [|p r IH]; [reflexivity|]. intros [Hp Hr].
  change (stable_sort (p :: r)) with (insert_keyed p (stable_sort r)).
  rewrite (IH Hr). destruct r as [|q r']; [reflexivity|]. cbn.
  specialize (Hp q (or_introl eq_refl)).
  destruct (Z.ltb_spec (fst q) (fst p)); [lia|reflexivity].
Qed.

Lemma clock_keys_ascending `{Runtime} (l : list Email) (t : nat) :
  (forall i j, i <= j -> (clock i <= clock j)%Z) ->
  ascending (combine (map clock (seq t (length l))) l).
Proof.
  intros M. revert t; induction l as [|e r IH]; intros t; cbn; [exact I|].
  split; [|apply IH].
  intros [k x] Hq. apply in_combine_l in Hq. apply in_map_iff in Hq.
  destruct Hq as (i & <- & Hi). apply in_seq in Hi. cbn. apply M. lia.
Qed.

(** With a clock that does not run backwards, sorting a bucket by
    [_get_email_timestamp] leaves it in the order it had. *)
Lemma sort_keeps_fetch_order `{Runtime} (l : list Email) (t : nat) :
  (forall i j, i <= j -> (clock i <= clock j)%Z) ->
  fst (sort_by_key _get_email_timestamp l t) = l.
Proof.
  intros M. unfold sort_by_key, bind. rewrite mapM_timestamps. cbn.
  rewrite (stable_sort_ascending _ (clock_keys_ascending l t M)).
  apply map_snd_combine. now rewrite length_map, length_seq.
Qed.

(** C5 fails on the code.  The timestamp of a message is the clock
    reading and nothing else, whatever Date header the message carries;
    two messages of one bucket whose Date headers are a day apart, the
    later one fetched first, stay in fetch order and are not put in
    ascending Date order. *)
Theorem dates_do_not_order_bucket :
  (forall (R : Runtime) (email : Email) (t : nat),
      fst (_get_email_timestamp email t) = clock t) /\
  find_date (headers dated_late) = Some "Tue, 02 Jan 2024 10:00:00 +0000" /\
  find_date (headers dated_early) = Some "Mon, 01 Jan 2024 10:00:00 +0000" /\
  fst (@group_emails_by_thread example_runtime [dated_late; dated_early] 0)
  = [("a@x", [dated_late; dated_early])].
Proof.
  split; [|repeat split].
  intros R email t. now rewrite get_email_timestamp_now.
Qed.

(** ** Pattern analysis *)

Lemma fold_step_response_pattern (l : list Email) :
  forall (k : nat) (acc : ThreadAnalysis) (prev : option string),
    response_pattern
      (fst (fold_left step_analysis (combine (seq k (length l)) l) (acc, prev)))
    = (response_pattern acc ++ patterns_after prev l)%list.
Proof.
  induction l as [|e r IH]; intros k acc prev; cbn [length seq combine fold_left].
  - cbn. now rewrite app_nil_r.
  - cbn [step_analysis]. rewrite IH. cbn [response_pattern patterns_after].
    rewrite <- app_assoc. reflexivity.
Qed.

Lemma analyze_response_pattern `{Runtime} (thread : list Email) :
  thread <> [] ->
  exists a, analyze_thread_patterns thread = Some a /\
            response_pattern a = patterns_after None thread.
Proof.
  intros NE. unfold analyze_thread_patterns.
  destruct thread as [|e r]; [congruence|].
  pose proof (fold_step_response_pattern (e :: r) 0
                (mkAnalysis (length (e :: r)) [] [] false 0 []) None) as F.
  unfold enumerate.
  destruct (fold_left step_analysis _ _) as [analysis p].
  eexists; split; [reflexivity|]. exact F.
Qed.

Lemma patterns_after_length (l : list Email) (prev : option string) :
  length (patterns_after prev l) = length l.
Proof. revert prev; induction l; intros; cbn; [|rewrite IHl]; reflexivity. Qed.

Lemma patterns_after_next (l : list Email) :
  forall (prev : option string) (i : nat) (p c : Email),
    nth_error l i = Some p -> nth_error l (S i) = Some c ->
    nth_error (patterns_after prev l) (S i)
    = Some (if PyStr.nonempty (sender_of p)
               && negb (String.eqb (sender_of p) (sender_of c))
            then "response" else "continuation").
Proof.
  induction l as [|e r IH]; intros prev i p c Hp Hc; [destruct i; discriminate|].
  destruct i as [|i]; cbn in Hp, Hc.
  - inversion Hp; subst. destruct r as [|e' r']; [discriminate|].
    inversion Hc; subst. reflexivity.
  - cbn [patterns_after nth_error]. now apply IH.
Qed.

(** C6, as amended.  On a thread that is not empty the response pattern
    has one entry per message; the entry at index 0 is "continuation";
    the entry at an index [i+1] is "response" exactly when the sender of
    message [i] is not the empty string and differs from the sender of
    message [i+1], and "continuation" exactly when the sender of message
    [i] is empty or the two senders are equal. *)
Theorem response_pattern_spec `{Runtime} (thread : list Email) :
  thread <> [] ->
  exists a,
    analyze_thread_patterns thread = Some a /\
    length (response_pattern a) = length thread /\
    nth_error (response_pattern a) 0 = Some "continuation" /\
    forall i prev cur,
      nth_error thread i = Some prev ->
      nth_error thread (S i) = Some cur ->
      (nth_error (response_pattern a) (S i) = Some "response"
       <-> sender_of prev <> "" /\ sender_of prev <> sender_of cur) /\
      (nth_error (response_pattern a) (S i) = Some "continuation"
       <-> sender_of prev = "" \/ sender_of prev = sender_of cur).
Proof.
  intros NE. destruct (analyze_response_pattern thread NE) as (a & Ha & Hp).
  exists a. rewrite Hp. split; [exact Ha|]. split; [apply patterns_after_length|].
  split; [destruct thread; [congruence|reflexivity]|].
  intros i prev cur Hi Hc. rewrite (patterns_after_next thread None i _ _ Hi Hc).
  destruct (sender_of prev) as [|ch rest] eqn:Es; cbn [PyStr.nonempty andb].
  - split; split; try (intros [? ?]; congruence); try discriminate; auto.
  - destruct (String.eqb_spec (String ch rest) (sender_of cur)) as [E|D]; cbn.
    + split; split; try discriminate; try (intros [? ?]; congruence); auto.
    + split; split; try discriminate; auto.
      * intros _. split; congruence.
      * intros [?|?]; congruence.
Qed.

(** C6 as written fails: after a message whose sender is the empty
    string, a message from another sender is marked "continuation". *)
Lemma response_pattern_counterexample :
  sender_of msg_anon <> sender_of msg_b /\
  option_map response_pattern
    (@analyze_thread_patterns example_runtime [msg_anon; msg_b])
  = Some ["continuation"; "continuation"].
Proof. split; [discriminate|reflexivity]. Qed.

Lemma response_pattern_spec_witness :
  exists a,
    @analyze_thread_patterns example_runtime [msg_a; msg_b; msg_b] = Some a /\
    response_pattern a = ["continuation"; "response"; "continuation"].
Proof.
  destruct (@response_pattern_spec example_runtime [msg_a; msg_b; msg_b])
    as (a & Ha & _); [discriminate|].
  exists a. split; [exact Ha|].
  vm_compute in Ha. inversion Ha. reflexivity.
Defined.

(** ** Reply recommendation *)

Lemma startswith_spec (p s : string) :
  PyStr.startswith p s = true <-> exists post, s = p ++ post.
Proof.
  revert s; induction p as [|a p IH]; intros s; cbn.
  - split; [intros _; now exists s | reflexivity].
  - destruct s as [|b s]; [split; [discriminate | intros [? ?]; discriminate]|].
    rewrite andb_true_iff, IH. split.
    + intros [E [post ->]]. apply Ascii.eqb_eq in E as ->. now exists post.
    + intros [post E]. inversion E; subst. split; [apply Ascii.eqb_refl|].
      now exists post.
Qed.

Lemma contains_spec (p s : string) : PyStr.contains p s = true <-> occurs p s.
Proof.
  unfold occurs. induction s as [|c s IH]; cbn; rewrite orb_true_iff.
  - rewrite startswith_spec. split.
    + intros [[post E]|F]; [|discriminate]. now exists "", post.
    + intros (pre & post & E). left. destruct pre; [now exists post|discriminate].
  - rewrite startswith_spec, IH. split.
    + intros [[post E]|(pre & post & E)].
      * now exists "", post.
      * exists (String c pre), post. cbn. now rewrite E.
    + intros (pre & post & E). destruct pre as [|d pre]; cbn in E.
      * left. now exists post.
      * right. inversion E; subst. now exists pre, post.
Qed.

Lemma lower_app (a b : string) :
  PyStr.lower (a ++ b) = PyStr.lower a ++ PyStr.lower b.
Proof. induction a as [|c a IH]; cbn; [|rewrite IH]; reflexivity. Qed.

Lemma lower_split (a b : string) :
  forall s, PyStr.lower s = a ++ b ->
            exists a' b', s = a' ++ b' /\ PyStr.lower a' = a /\ PyStr.lower b' = b.
Proof.
  induction a as [|c a IH]; intros s E; cbn in E.
  - now exists "", s.
  - destruct s as [|d s]; [discriminate|]. cbn in E. inversion E as [[Ec Es]].
    destruct (IH s Es) as (a' & b' & -> & Ea & Eb).
    exists (String d a'), b'. cbn. now rewrite Ea, Eb.
Qed.

(** [p in s.lower()] for a pattern without capitals is an occurrence of
    [p] in [s] up to letter case. *)
Lemma contains_lower_ci (p s : string) :
  PyStr.lower p = p ->
  PyStr.contains p (PyStr.lower s) = true <-> occurs_ci p s.
Proof.
  intros Lp. rewrite contains_spec. unfold occurs, occurs_ci. rewrite Lp. split.
  - intros (pre & post & E).
    destruct (lower_split pre (p ++ post) s E) as (pre' & r & -> & _ & Er).
    destruct (lower_split p post r Er) as (mid & post' & -> & Em & _).
    now exists pre', mid, post'.
  - intros (pre & mid & post & -> & Em).
    exists (PyStr.lower pre), (PyStr.lower post).
    now rewrite !lower_app, Em.
Qed.

Lemma lower_char_question (c : ascii) :
  PyStr.lower_char c = "?"%char -> c = "?"%char.
Proof.
  destruct c as [[] [] [] [] [] [] [] []]; vm_compute; intros E;
    try discriminate E; reflexivity.
Qed.

Lemma occurs_ci_question (s : string) : occurs_ci "?" s <-> occurs "?" s.
Proof.
  unfold occurs_ci, occurs. split.
  - intros (pre & mid & post & -> & Em).
    destruct mid as [|c [|d mid]]; cbn in Em; try discriminate.
    inversion Em as [Ec]. apply lower_char_question in Ec as ->.
    now exists pre, post.
  - intros (pre & post & ->). now exists pre, "?", post.
Qed.

(** C7.  The confidence of a recommendation lies between 0 and 1 (as
    binary64 numbers, the way Python computes them); when the body of
    the candidate holds one of the reply indicators and the thread shows
    an urgency escalation, it is exactly 1.0. *)
Theorem confidence_in_unit_interval `{Runtime} (email : Email)
  (thread_context : list Email) :
  let r := should_draft_reply email thread_context in
  (PrimFloat.leb 0 (confidence r) = true /\
   PrimFloat.leb (confidence r) 1 = true) /\
  (existsb (fun indicator =>
              PyStr.contains indicator (PyStr.lower (get_or (body email) "")))
           reply_indicators = true ->
   option_map urgency_escalation
     (analyze_thread_patterns (thread_context ++ [email])%list) = Some true ->
   confidence r = 1%float).
Proof.
  cbv zeta. unfold should_draft_reply. cbn [confidence].
  destruct (existsb _ reply_indicators);
    destruct (analyze_thread_patterns (thread_context ++ [email])%list)
      as [a|]; cbn [option_map];
    try destruct (urgency_escalation a);
    (split; [split; reflexivity|]); intros E1 E2;
    try discriminate; try reflexivity.
Qed.

Lemma confidence_in_unit_interval_witness :
  confidence (@should_draft_reply example_runtime
                (mkEmail (Some "9") (Some "bob@x") (Some "Re: Budget")
                         (Some "Can you send it? This is URGENT.") [])
                [msg_a])
  = 1%float.
Proof.
  apply (@confidence_in_unit_interval example_runtime
           (mkEmail (Some "9") (Some "bob@x") (Some "Re: Budget")
                    (Some "Can you send it? This is URGENT.") [])
           [msg_a]); reflexivity.
Defined.

(** C8.  Whether a reply is recommended depends on the body of the
    candidate alone: it is the same for any two prior threads, and it is
    recommended exactly when the body holds a question mark or, up to
    letter case, one of "please", "can you", "what do you think". *)
Theorem should_reply_depends_on_body `{Runtime} (email : Email)
  (T1 T2 : list Email) :
  should_reply (should_draft_reply email T1)
  = should_reply (should_draft_reply email T2) /\
  (should_reply (should_draft_reply email T1) = true <->
   occurs "?" (get_or (body email) "") \/
   occurs_ci "please" (get_or (body email) "") \/
   occurs_ci "can you" (get_or (body email) "") \/
   occurs_ci "what do you think" (get_or (body email) "")).
Proof.
  unfold should_draft_reply. cbn [should_reply]. split; [reflexivity|].
  rewrite <- occurs_ci_question.
  rewrite <- !contains_lower_ci by reflexivity.
  unfold reply_indicators. cbn [existsb].
  destruct (PyStr.contains "?" _), (PyStr.contains "please" _),
    (PyStr.contains "can you" _), (PyStr.contains "what do you think" _);
    cbn; intuition discriminate.
Qed.

(** ** Conversation summary *)

Lemma string_app_assoc (a b c : string) : (a ++ b) ++ c = a ++ b ++ c.
Proof. induction a as [|x a IH]; cbn; [|rewrite IH]; reflexivity. Qed.

Lemma string_app_empty_r (a : string) : a ++ "" = a.
Proof. induction a as [|x a IH]; cbn; [|rewrite IH]; reflexivity. Qed.

Lemma existsb_eqb_In (x : string) (s : list string) :
  existsb (String.eqb x) s = true <-> In x s.
Proof.
  rewrite existsb_exists. split.
  - intros (y & I & E). apply String.eqb_eq in E. now subst.
  - intros I. exists x. split; [exact I|apply String.eqb_refl].
Qed.

Lemma set_add_spec (x : string) (s : list string) :
  NoDup s ->
  NoDup (set_add x s) /\ (forall y, In y (set_add x s) <-> y = x \/ In y s).
Proof.
  intros N. unfold set_add.
  destruct (existsb (String.eqb x) s) eqn:E.
  - apply existsb_eqb_In in E. split; [exact N|].
    intros y. split; [auto|]. intros [->|I]; assumption.
  - assert (NI : ~ In x s).
    { intros I. apply existsb_eqb_In in I. congruence. }
    split.
    + apply NoDup_app; [exact N | constructor; [intros []|constructor] |].
      intros y I [<-|[]]. contradiction.
    + intros y. rewrite in_app_iff. cbn. intuition.
Qed.

Lemma set_of_from (l acc : list string) :
  NoDup acc ->
  NoDup (fold_left (fun s x => set_add x s) l acc) /\
  (forall y, In y (fold_left (fun s x => set_add x s) l acc)
             <-> In y acc \/ In y l).
Proof.
  revert acc; induction l as [|x r IH]; intros acc N; cbn.
  - split; [exact N|]. intuition.
  - destruct (set_add_spec x acc N) as [N' I'].
    destruct (IH _ N') as [N'' I'']. split; [exact N''|].
    intros y. rewrite I'', I'. intuition.
Qed.

Lemma set_of_spec (l : list string) :
  NoDup (set_of l) /\ (forall y, In y (set_of l) <-> In y l).
Proof.
  destruct (set_of_from l [] (NoDup_nil _)) as [N I]. split; [exact N|].
  intros y. rewrite (I y). cbn. intuition.
Qed.

Lemma last_map_nonempty {A B : Type} (f : A -> B) (l : list A) (d : A) (d' : B) :
  l <> [] -> last (map f l) d' = f (last l d).
Proof.
  induction l as [|x r IH]; [congruence|]. intros _.
  destruct r as [|y r]; [reflexivity|].
  change (last (map f (y :: r)) d' = f (last (y :: r) d)).
  apply IH. discriminate.
Qed.

(** C9, as amended.  For a thread of two messages or more the summary is
    "Conversation with N participants (names), M messages. Topic: T":
    the names are the distinct senders (a missing sender reads
    "Unknown"), N is their number, at most three of them are listed,
    joined by ", " and followed by " +K others" with K = N - 3 when N > 3,
    M is the length of the thread, and T is the first 50 characters of
    the normalized subject of the last message.  The Topic segment is
    always there; it ends in nothing when that normalized subject is
    empty. *)
Theorem conversation_summary_spec `{Runtime} (thread : list Email) :
  2 <= length thread ->
  exists names : list string,
    NoDup names /\
    (forall s, In s names <-> In s (map sender_name thread)) /\
    get_conversation_summary thread =
    "Conversation with " ++ PyStr.of_nat (length names) ++ " participants ("
    ++ PyStr.join ", " (firstn 3 names)
    ++ (if (3 <? length names)%nat
        then " +" ++ PyStr.of_nat (length names - 3) ++ " others" else "")
    ++ "), " ++ PyStr.of_nat (length thread) ++ " messages"
    ++ ". Topic: "
    ++ PyStr.take 50
         (_normalize_subject (get_or (subject (last thread msg_a)) "")).
Proof.
  intros L. destruct thread as [|e1 [|e2 r]]; cbn in L; try lia.
  set (thread := e1 :: e2 :: r).
  destruct (set_of_spec (map sender_name thread)) as [N I].
  pose proof (set_iter_perm (set_of (map sender_name thread))) as P.
  exists (set_iter (set_of (map sender_name thread))).
  split; [exact (Permutation_NoDup (Permutation_sym P) N)|].
  split.
  { intros s. rewrite <- I. split; apply Permutation_in;
      [exact P | exact (Permutation_sym P)]. }
  rewrite (Permutation_length P).
  unfold get_conversation_summary. fold thread.
  fold (sender_name).
  change (map (fun email : Email => get_or (sender email) "Unknown") thread)
    with (map sender_name thread).
  set (subjects := map (fun email : Email => get_or (subject email) "") thread).
  assert (Hs : match subjects with
               | [] => []
               | _ :: _ => [_normalize_subject (last subjects "")]
               end
               = [_normalize_subject (get_or (subject (last thread msg_a)) "")]).
  { unfold subjects.
    rewrite (last_map_nonempty (fun email : Email => get_or (subject email) "")
               thread msg_a "") by discriminate.
    reflexivity. }
  rewrite Hs.
  destruct (3 <? length (set_of (map sender_name thread)))%nat;
    rewrite ?string_app_assoc; cbn [append]; rewrite ?string_app_assoc;
    reflexivity.
Qed.

(** C9 as written fails: the Topic segment is appended although the last
    message has an empty subject. *)
Lemma summary_topic_counterexample :
  subject msg_bare = Some "" /\
  @get_conversation_summary example_runtime [msg_a; msg_bare]
  = "Conversation with 2 participants (ann@x, bob@x), 2 messages. Topic: " /\
  @get_conversation_summary example_runtime [msg_a; msg_bare]
  <> "Conversation with 2 participants (ann@x, bob@x), 2 messages".
Proof. repeat split. vm_compute. discriminate. Qed.

Lemma conversation_summary_spec_witness :
  exists names : list string,
    NoDup names /\
    (forall s, In s names <-> In s ["ann@x"; "bob@x"]) /\
    @get_conversation_summary example_runtime [msg_a; msg_b] =
    "Conversation with " ++ PyStr.of_nat (length names) ++ " participants ("
    ++ PyStr.join ", " (firstn 3 names)
    ++ (if (3 <? length names)%nat
        then " +" ++ PyStr.of_nat (length names - 3) ++ " others" else "")
    ++ "), 2 messages. Topic: budget".
Proof.
  apply (@conversation_summary_spec example_runtime [msg_a; msg_b]).
  cbn. lia.
Defined.

(** ** The orchestrator *)

Lemma analyze_email_fallback `{JsonDecoder} (self : AIAnalyzer) (email : Email) :
  classifier_fails self email ->
  analyze_email self (get_or (sender email) "") (get_or (subject email) "")
                (get_or (body email) "") None
  = _fallback_analysis.
Proof.
  unfold classifier_fails, analyze_email. cbn [thread_info_of].
  destruct (client self) as [c|]; [|reflexivity].
  destruct (complete c _ _ _ _) as [text|]; [|reflexivity].
  now intros ->.
Qed.

(** What [analyze_email_with_context] returns when the classifier call
    fails, in terms of the thread context found for the message. *)
Lemma with_context_on_failure `{Runtime} `{JsonDecoder} (self : AIAnalyzer)
  (email : Email) (all_emails : option (list Email)) (t : nat) :
  classifier_fails self email ->
  let ctx := fst (get_thread_context email (get_or all_emails []) t) in
  fst (analyze_email_with_context self email all_emails t)
  = Returns (Some
      match ctx with
      | [] => _fallback_analysis
      | _ =>
          let recommendation := should_draft_reply email ctx in
          fallback_with
            (if String.eqb (reply_urgency recommendation) "high"
             then "High" else "Medium")
            [("thread_context",
              thread_context_entry
                (analyze_thread_patterns (ctx ++ [email])%list)
                (get_conversation_summary (ctx ++ [email])%list)
                recommendation)]
      end).
Proof.
  intros F. cbv zeta. unfold analyze_email_with_context.
  rewrite (analyze_email_fallback self email F).
  change (negb (py_bool _fallback_analysis)) with false. cbv iota.
  destruct all_emails as [[|x l]|]; try reflexivity.
  cbn [get_or]. unfold bind.
  destruct (get_thread_context email (x :: l) t) as [ctx t1]. cbn [fst].
  destruct ctx as [|c0 ctx]; [reflexivity|].
  unfold _fallback_analysis, adjust_priority, fallback_with.
  destruct (String.eqb (reply_urgency _) "high"); [reflexivity|].
  destruct (analyze_thread_patterns _) as [a|]; [|reflexivity].
  destruct (urgency_escalation a); reflexivity.
Qed.

(** C1, as amended.  When the classifier call fails (no client, an
    exception, a reply that does not decode), [analyze_email_with_context]
    returns a record and never [None].  The record is the fallback record
    verbatim when no other message of the thread is found; otherwise it
    is the fallback record with a [thread_context] item added and with
    priority "High" in place of "Medium" when the recommended reply
    urgency is high, all other items being those of the fallback record. *)
Theorem fallback_on_classifier_failure `{Runtime} `{JsonDecoder}
  (self : AIAnalyzer) (email : Email) (all_emails : option (list Email))
  (t : nat) :
  classifier_fails self email ->
  let ctx := fst (get_thread_context email (get_or all_emails []) t) in
  exists v,
    fst (analyze_email_with_context self email all_emails t)
    = Returns (Some v) /\
    (ctx = [] -> v = _fallback_analysis) /\
    (ctx <> [] ->
     exists entry,
       v = fallback_with
             (if String.eqb (reply_urgency (should_draft_reply email ctx)) "high"
              then "High" else "Medium")
             [("thread_context", entry)]).
Proof.
  intros F. cbv zeta.
  rewrite (with_context_on_failure self email all_emails t F). cbv zeta.
  eexists. split; [reflexivity|].
  destruct (fst (get_thread_context email (get_or all_emails []) t));
    split; try congruence; intros _.
  eexists. reflexivity.
Qed.

(** C1 as written fails: without a client, a message that raises the
    urgency of its thread gets a record with priority "High" and a
    [thread_context] item, which is not the fallback record. *)
Lemma fallback_verbatim_counterexample :
  @classifier_fails example_decoder (mkAIAnalyzer None) msg_urgent /\
  exists d,
    fst (@analyze_email_with_context example_runtime example_decoder
           (mkAIAnalyzer None) msg_urgent (Some [msg_a; msg_urgent]) 0)
    = Returns (Some (VDict d)) /\
    dict_get "priority" d = Some (VStr "High") /\
    VDict d <> _fallback_analysis.
Proof.
  split; [exact I|]. eexists. split; [vm_compute; reflexivity|].
  split; [reflexivity|]. unfold _fallback_analysis. discriminate.
Qed.

Lemma fallback_on_classifier_failure_witness :
  fst (@analyze_email_with_context example_runtime example_decoder
         (mkAIAnalyzer None) msg_c (Some [msg_a; msg_c; msg_b]) 0)
  = Returns (Some _fallback_analysis).
Proof.
  destruct (@fallback_on_classifier_failure example_runtime example_decoder
              (mkAIAnalyzer None) msg_c (Some [msg_a; msg_c; msg_b]) 0 I)
    as (v & E & V & _).
  rewrite E, (V eq_refl). reflexivity.
Defined.

(** C2, as amended.  A failing classifier call never makes
    [analyze_email_with_context] return [None].  It returns [None]
    exactly when the classifier did reply and the reply decodes to a
    value that is false in Python, such as the empty object; no record is
    produced then. *)
Theorem none_only_on_false_reply `{Runtime} `{JsonDecoder}
  (self : AIAnalyzer) (email : Email) (all_emails : option (list Email))
  (t : nat) :
  (classifier_fails self email ->
   fst (analyze_email_with_context self email all_emails t) <> Returns None) /\
  (fst (analyze_email_with_context self email all_emails t) = Returns None
   <-> exists c text v,
         client self = Some c /\
         complete c (get_or (sender email) "") (get_or (subject email) "")
                  (PyStr.take 1500 (get_or (body email) "")) "" = Some text /\
         decode_response text = Some v /\
         py_bool v = false).
Proof.
  split.
  - intros F. rewrite (with_context_on_failure self email all_emails t F).
    discriminate.
  - unfold analyze_email_with_context, analyze_email. cbn [thread_info_of].
    split.
    + destruct (client self) as [c|].
      * destruct (complete c _ _ _ _) as [text|] eqn:Et.
        -- destruct (decode_response text) as [v|] eqn:Ed.
           ++ destruct (py_bool v) eqn:B; cbn [negb].
              ** intros E. exfalso. revert E.
                 destruct all_emails as [[|x l]|]; try discriminate.
                 unfold bind. destruct (get_thread_context _ _ _) as [ctx t1].
                 destruct ctx; [discriminate|]. destruct v; discriminate.
              ** intros _. exists c, text, v. auto.
           ++ intros E. exfalso. revert E.
              change (negb (py_bool _fallback_analysis)) with false. cbv iota.
              destruct all_emails as [[|x l]|]; try discriminate.
              unfold bind. destruct (get_thread_context _ _ _) as [ctx t1].
              destruct ctx; discriminate.
        -- intros E. exfalso. revert E.
           change (negb (py_bool _fallback_analysis)) with false. cbv iota.
           destruct all_emails as [[|x l]|]; try discriminate.
           unfold bind. destruct (get_thread_context _ _ _) as [ctx t1].
           destruct ctx; discriminate.
      * intros E. exfalso. revert E.
        change (negb (py_bool _fallback_analysis)) with false. cbv iota.
        destruct all_emails as [[|x l]|]; try discriminate.
        unfold bind. destruct (get_thread_context _ _ _) as [ctx t1].
        destruct ctx; discriminate.
    + intros (c & text & v & -> & -> & -> & ->). reflexivity.
Qed.

(** C2 as written fails: without a client the call returns the fallback
    record, not [None]. *)
Lemma none_on_failure_counterexample :
  @classifier_fails example_decoder (mkAIAnalyzer None) msg_a /\
  fst (@analyze_email_with_context example_runtime example_decoder
         (mkAIAnalyzer None) msg_a (Some [msg_a]) 0)
  = Returns (Some _fallback_analysis) /\
  fst (@analyze_email_with_context example_runtime example_decoder
         (mkAIAnalyzer None) msg_a (Some [msg_a]) 0)
  <> Returns None.
Proof. repeat split. discriminate. Qed.

Lemma none_only_on_false_reply_witness :
  fst (@analyze_email_with_context example_runtime example_decoder
         (mkAIAnalyzer (Some (mkClient (fun _ _ _ _ => None))))
         msg_b (Some [msg_a; msg_b]) 0)
  <> Returns None.
Proof.
  apply (@none_only_on_false_reply example_runtime example_decoder
           (mkAIAnalyzer (Some (mkClient (fun _ _ _ _ => None))))
           msg_b (Some [msg_a; msg_b]) 0).
  exact I.
Defined.

(** * Further properties of the code *)

(** ** Normalization *)

(** X1.  A normalized message id holds no angle bracket and no white
    space; normalizing it again changes nothing, and a string without
    such characters is its own normal form. *)
Theorem normalize_message_id_clean (s : string) :
  all_chars id_char (_normalize_message_id s) = true /\
  _normalize_message_id (_normalize_message_id s) = _normalize_message_id s /\
  (all_chars id_char s = true -> _normalize_message_id s = s).
Proof.
  assert (K : forall r, all_chars id_char r = true -> _normalize_message_id r = r).
  { induction r as [|c r IH]; [reflexivity|]. cbn. unfold id_char at 1.
    intros E. apply andb_true_iff in E as [Ec Er].
    apply negb_true_iff in Ec. rewrite Ec, (IH Er). reflexivity. }
  assert (C : all_chars id_char (_normalize_message_id s) = true).
  { induction s as [|c s IH]; [reflexivity|]. cbn.
    destruct (Ascii.eqb c "<" || Ascii.eqb c ">" || PyStr.isspace c) eqn:E;
      [exact IH|].
    cbn. unfold id_char at 1. now rewrite E, IH. }
  split; [exact C|]. split; [exact (K _ C)|exact (K s)].
Qed.

Lemma normalize_message_id_clean_witness :
  _normalize_message_id "abc@x.org" = "abc@x.org".
Proof. apply (normalize_message_id_clean "abc@x.org"). reflexivity. Defined.

Lemma lower_char_keeps_space (c : ascii) :
  PyStr.isspace c = true -> PyStr.lower_char c = c.
Proof.
  destruct c as [[] [] [] [] [] [] [] []]; vm_compute; intros E;
    try discriminate E; reflexivity.
Qed.

Lemma lower_spaces (ws : string) :
  all_chars PyStr.isspace ws = true -> PyStr.lower ws = ws.
Proof.
  induction ws as [|c ws IH]; [reflexivity|]. cbn. intros E.
  apply andb_true_iff in E as [Ec Er].
  now rewrite (lower_char_keeps_space c Ec), (IH Er).
Qed.

Lemma lstrip_spaces_app (ws y : string) :
  all_chars PyStr.isspace ws = true -> PyStr.lstrip (ws ++ y) = PyStr.lstrip y.
Proof.
  induction ws as [|c ws IH]; [reflexivity|]. cbn. intros E.
  apply andb_true_iff in E as [Ec Er]. rewrite Ec. exact (IH Er).
Qed.

Lemma lstrip_idem (y : string) : PyStr.lstrip (PyStr.lstrip y) = PyStr.lstrip y.
Proof.
  induction y as [|c y IH]; [reflexivity|]. cbn.
  destruct (PyStr.isspace c) eqn:E; [exact IH|]. cbn. now rewrite E.
Qed.

Lemma lstrip_collapse (y : string) :
  forall b, PyStr.lstrip (collapse_spaces b y)
            = collapse_spaces false (PyStr.lstrip y).
Proof.
  induction y as [|c y IH]; intros b; [reflexivity|]. cbn.
  destruct (PyStr.isspace c) eqn:E.
  - destruct b; [apply IH|]. cbn. apply IH.
  - cbn. now rewrite E.
Qed.

Lemma strip_collapse_lstrip (y : string) :
  PyStr.strip (collapse_spaces false (PyStr.lstrip y))
  = PyStr.strip (collapse_spaces false y).
Proof.
  unfold PyStr.strip. now rewrite !lstrip_collapse, lstrip_idem.
Qed.

Lemma normalize_subject_marker (mk ws s : string) :
  In (PyStr.lower mk) ["re:"; "fwd:"; "fw:"] ->
  all_chars PyStr.isspace ws = true ->
  strip_reply_prefix (PyStr.lower s) = PyStr.lower s ->
  _normalize_subject (mk ++ ws ++ s) = _normalize_subject s.
Proof.
  intros M W S. unfold _normalize_subject.
  rewrite !lower_app, (lower_spaces ws W), S.
  assert (E : strip_reply_prefix (PyStr.lower mk ++ ws ++ PyStr.lower s)
              = PyStr.lstrip (PyStr.lower s)).
  { destruct M as [<-|[<-|[<-|[]]]]; unfold strip_reply_prefix; cbn;
      apply lstrip_spaces_app, W. }
  rewrite E. apply strip_collapse_lstrip.
Qed.

(** X2.  Subject fallback groups a reply with its original: when
    neither message carries a threading header, a message whose subject
    is that of another one behind a marker "Re:", "Fwd:" or "Fw:" (in any
    letter case, followed by any white space) gets the same thread key,
    provided the other subject does not start with such a marker itself. *)
Theorem marked_subject_same_thread `{Runtime} (orig reply : Email)
  (mk ws : string) :
  no_threading_headers orig ->
  no_threading_headers reply ->
  In (PyStr.lower mk) ["re:"; "fwd:"; "fw:"] ->
  all_chars PyStr.isspace ws = true ->
  strip_reply_prefix (PyStr.lower (get_or (subject orig) ""))
  = PyStr.lower (get_or (subject orig) "") ->
  get_or (subject reply) "" = mk ++ ws ++ get_or (subject orig) "" ->
  extract_thread_id reply = extract_thread_id orig.
Proof.
  intros (I1 & R1 & M1) (I2 & R2 & M2) Mk W S E.
  rewrite !extract_thread_id_stages, I1, I2.
  unfold from_references, from_message_id. rewrite R1, R2, M1, M2.
  unfold subject_key. rewrite E.
  now rewrite (normalize_subject_marker mk ws _ Mk W S).
Qed.

Lemma marked_subject_same_thread_witness :
  @extract_thread_id example_runtime
    (mkEmail (Some "2") (Some "bob@x") (Some "FWD:   Team Lunch") None [])
  = @extract_thread_id example_runtime
      (mkEmail (Some "1") (Some "ann@x") (Some "Team Lunch") None
               [mkHeader "Date" "Mon, 01 Jan 2024 10:00:00 +0000"]).
Proof.
  apply (@marked_subject_same_thread example_runtime
           (mkEmail (Some "1") (Some "ann@x") (Some "Team Lunch") None
                    [mkHeader "Date" "Mon, 01 Jan 2024 10:00:00 +0000"])
           (mkEmail (Some "2") (Some "bob@x") (Some "FWD:   Team Lunch") None [])
           "FWD:" "   ");
    try (repeat split; reflexivity).
  right; left; reflexivity.
Defined.

(** X3.  A reply joins the thread of its parent: a message keyed by its
    own Message-ID (no In-Reply-To, no References) and a message whose
    In-Reply-To, or whose first References token when it has no
    In-Reply-To, normalizes to the same non-empty id get the same key. *)
Theorem reply_joins_parent_thread `{Runtime} (parent reply : Email)
  (m : string) :
  last_header "in-reply-to" (headers parent) = None ->
  last_header "references" (headers parent) = None ->
  last_header "message-id" (headers parent) = Some m ->
  _normalize_message_id m <> "" ->
  (exists v, last_header "in-reply-to" (headers reply) = Some v /\
             _normalize_message_id v = _normalize_message_id m) \/
  (last_header "in-reply-to" (headers reply) = None /\
   exists refs r0 rest,
     last_header "references" (headers reply) = Some refs /\
     PyStr.split refs = r0 :: rest /\
     _normalize_message_id r0 = _normalize_message_id m) ->
  extract_thread_id reply = extract_thread_id parent /\
  extract_thread_id parent = _normalize_message_id m.
Proof.
  intros Pi Pr Pm Nm Hr.
  assert (Ep : extract_thread_id parent = _normalize_message_id m).
  { rewrite extract_thread_id_stages, Pi. unfold from_references, from_message_id.
    rewrite Pr, Pm. apply nonempty_true_iff in Nm. now rewrite Nm. }
  split; [|exact Ep]. rewrite Ep, extract_thread_id_stages.
  destruct Hr as [(v & Hv & Ev)|(Hn & refs & r0 & rest & Hrf & Hs & Er)].
  - rewrite Hv, Ev. apply nonempty_true_iff in Nm. now rewrite Nm.
  - rewrite Hn. unfold from_references. now rewrite Hrf, Hs.
Qed.

Lemma reply_joins_parent_thread_witness :
  @extract_thread_id example_runtime
    (mkEmail (Some "8") (Some "cy@x") (Some "other") None
             [mkHeader "REFERENCES" " <a@x>  <b@x>"])
  = @extract_thread_id example_runtime msg_a.
Proof.
  apply (@reply_joins_parent_thread example_runtime msg_a
           (mkEmail (Some "8") (Some "cy@x") (Some "other") None
                    [mkHeader "REFERENCES" " <a@x>  <b@x>"]) "<a@x>");
    try reflexivity; [vm_compute; discriminate|].
  right. split; [reflexivity|].
  exists " <a@x>  <b@x>", "<a@x>", ["<b@x>"]. repeat split.
Defined.

(** ** Buckets *)

Lemma Permutation_filter {A : Type} (f : A -> bool) (l l' : list A) :
  Permutation l l' -> Permutation (filter f l) (filter f l').
Proof.
  induction 1 as [|x l l' P IH|x y l|l l' l'' P1 IH1 P2 IH2]; cbn.
  - constructor.
  - destruct (f x); [now constructor|exact IH].
  - destruct (f x), (f y); try reflexivity. apply perm_swap.
  - now transitivity (filter f l').
Qed.

Lemma filter_filter {A : Type} (f g : A -> bool) (l : list A) :
  filter g (filter f l) = filter (fun x => f x && g x) l.
Proof.
  induction l as [|x l IH]; [reflexivity|]. cbn.
  destruct (f x); cbn; [destruct (g x)|]; now rewrite IH.
Qed.

Lemma bucket_append_fst (k : string) (e : Email) (threads : Threads) :
  map fst (bucket_append k e threads) = set_add k (map fst threads).
Proof.
  unfold set_add. induction threads as [|[k0 b0] r IH]; [reflexivity|]. cbn.
  rewrite (String.eqb_sym k k0).
  destruct (String.eqb k0 k); cbn; [reflexivity|].
  rewrite IH. now destruct (existsb (String.eqb k) (map fst r)).
Qed.

Lemma collect_keys_from `{Runtime} (emails : list Email) (threads : Threads) :
  map fst (fold_left (fun threads email =>
                        bucket_append (extract_thread_id email) email threads)
                     emails threads)
  = fold_left (fun s x => set_add x s) (map extract_thread_id emails)
              (map fst threads).
Proof.
  revert threads; induction emails as [|e r IH]; intros threads; [reflexivity|].
  cbn. now rewrite IH, bucket_append_fst.
Qed.

(** X4.  The buckets come in the order in which their keys are first
    seen in the input: the keys of the result are the thread keys of the
    messages, each once, in order of first occurrence. *)
Theorem group_keys_first_seen `{Runtime} (emails : list Email) (t : nat) :
  map fst (fst (group_emails_by_thread emails t))
  = set_of (map extract_thread_id emails).
Proof.
  unfold group_emails_by_thread.
  destruct (Forall2_buckets_keys _ _ (sort_buckets (collect_threads emails) t))
    as (Ek & _ & _).
  unfold Threads in *. rewrite Ek. apply (collect_keys_from emails []).
Qed.


Lemma in_bucket_append (k0 : string) (e : Email) (threads : Threads)
  (k : string) (b : list Email) :
  NoDup (map fst threads) ->
  In (k, b) (bucket_append k0 e threads) ->
  (k <> k0 /\ In (k, b) threads) \/
  (k = k0 /\
   ((exists b0, In (k0, b0) threads /\ b = (b0 ++ [e])%list) \/
    (~ In k0 (map fst threads) /\ b = [e]))).
Proof.
  induction threads as [|[k1 b1] r IH]; cbn; intros N I.
  - destruct I as [E|[]]. inversion E; subst. right. split; [reflexivity|].
    right. split; [intros []|reflexivity].
  - inversion N as [|? ? N1 Nr]; subst.
    destruct (String.eqb_spec k1 k0) as [->|D]; cbn in I.
    + destruct I as [E|I].
      * inversion E; subst. right. split; [reflexivity|]. left.
        exists b1. split; [now left|reflexivity].
      * left. split; [|now right].
        intros ->. apply N1. apply (in_map fst) in I. exact I.
    + destruct I as [E|I].
      * inversion E; subst. left. split; [exact D|now left].
      * destruct (IH Nr I) as [[Dk Ik]|[-> [(b0 & I0 & ->)|[Nk ->]]]].
        -- left. split; [exact Dk|now right].
        -- right. split; [reflexivity|]. left. exists b0.
           split; [now right|reflexivity].
        -- right. split; [reflexivity|]. right.
           split; [|reflexivity]. intros [E|I']; [congruence|contradiction].
Qed.

Lemma filter_none {A : Type} (f : A -> bool) (l : list A) :
  (forall x, In x l -> f x = false) -> filter f l = [].
Proof.
  induction l as [|x l IH]; [reflexivity|]. intros F. cbn.
  rewrite (F x (or_introl eq_refl)). apply IH. intros y I. apply F. now right.
Qed.

Lemma bucket_append_collected `{Runtime} (e : Email) (threads : Threads)
  (seen : list Email) :
  collected threads seen ->
  collected (bucket_append (extract_thread_id e) e threads) (seen ++ [e])%list.
Proof.
  intros (N & B & S & W). repeat split.
  - now apply bucket_append_nodup.
  - intros k b I. rewrite filter_app. cbn. unfold in_thread at 2.
    destruct (in_bucket_append _ e threads k b N I)
      as [[Dk Ik]|[-> [(b0 & I0 & ->)|[Nk ->]]]].
    + destruct (String.eqb_spec (extract_thread_id e) k) as [E|_];
        [congruence|]. rewrite app_nil_r. now apply B.
    + rewrite String.eqb_refl. now rewrite (B _ _ I0).
    + rewrite String.eqb_refl. rewrite filter_none; [reflexivity|].
      intros x Ix. unfold in_thread.
      destruct (String.eqb_spec (extract_thread_id x) (extract_thread_id e))
        as [E|_]; [|reflexivity].
      exfalso. apply Nk. rewrite <- E. now apply S.
  - intros x Ix. rewrite bucket_append_keys.
    apply in_app_or in Ix as [Ix|[->|[]]]; [right; now apply S|now left].
  - intros k Ik. apply bucket_append_keys in Ik as [->|Ik].
    + exists e. split; [apply in_or_app; right; now left|reflexivity].
    + destruct (W k Ik) as (x & Ix & Ex). exists x.
      split; [apply in_or_app; now left|exact Ex].
Qed.

Lemma collect_collected_from `{Runtime} (emails : list Email) :
  forall (threads : Threads) (seen : list Email),
    collected threads seen ->
    collected (fold_left (fun threads email =>
                            bucket_append (extract_thread_id email) email threads)
                         emails threads)
              (seen ++ emails)%list.
Proof.
  induction emails as [|e r IH]; intros threads seen C; cbn.
  - now rewrite app_nil_r.
  - replace (seen ++ e :: r)%list with ((seen ++ [e]) ++ r)%list
      by now rewrite <- app_assoc.
    apply IH. now apply bucket_append_collected.
Qed.

Lemma collect_threads_collected `{Runtime} (emails : list Email) :
  collected (collect_threads emails) emails.
Proof.
  apply (collect_collected_from emails [] []).
  repeat split; try constructor; intros; contradiction.
Qed.

Lemma sort_buckets_steady `{Runtime} (threads : Threads) (t : nat) :
  steady_clock ->
  fst (mapM (fun kb : string * list Email =>
               sorted <- sort_by_key _get_email_timestamp (snd kb) ;;
               ret (fst kb, sorted))
            threads t)
  = threads.
Proof.
  intros M. revert t; induction threads as [|[k b] r IH]; intros t;
    [reflexivity|].
  cbn [mapM]. unfold bind at 1 2.
  pose proof (sort_keeps_fetch_order b t M) as P.
  cbn [snd fst]. destruct (sort_by_key _get_email_timestamp b t) as [sb t1].
  unfold ret at 1. unfold bind.
  specialize (IH t1). destruct (mapM _ r t1) as [ys t2]. cbn in *.
  now subst.
Qed.

(** X5.  A bucket holds its thread and nothing else: every bucket of
    [group_emails_by_thread] is non-empty and is a rearrangement of the
    messages of the input that resolve to its key; when the clock does
    not run backwards it is exactly those messages in input order. *)
Theorem bucket_holds_its_thread `{Runtime} (emails : list Email) (t : nat)
  (k : string) (b : list Email) :
  In (k, b) (fst (group_emails_by_thread emails t)) ->
  b <> [] /\
  Permutation b (filter (in_thread k) emails) /\
  (steady_clock -> b = filter (in_thread k) emails).
Proof.
  intros I. destruct (collect_threads_collected emails) as (N & B & S & W).
  unfold group_emails_by_thread in I.
  destruct (Forall2_buckets_keys _ _ (sort_buckets (collect_threads emails) t))
    as (_ & _ & Hin).
  destruct (Hin k b I) as (b0 & I0 & P).
  pose proof (B k b0 I0) as E0.
  split; [|split].
  - destruct (W k (in_map fst _ _ I0)) as (x & Ix & Ex). intros ->.
    apply Permutation_nil in P. rewrite P in E0.
    assert (Fx : In x (filter (in_thread k) emails)).
    { apply filter_In. split; [exact Ix|]. unfold in_thread. rewrite Ex.
      apply String.eqb_refl. }
    rewrite <- E0 in Fx. exact Fx.
  - now rewrite <- E0.
  - intros M. unfold Threads in I. rewrite (sort_buckets_steady _ t M) in I.
    now apply B.
Qed.

Lemma example_clock_steady : @steady_clock example_runtime.
Proof. intros i j L. cbn. lia. Qed.

Lemma bucket_holds_its_thread_witness :
  [msg_a; msg_b] = filter (@in_thread example_runtime "a@x") [msg_a; msg_c; msg_b].
Proof.
  apply (@bucket_holds_its_thread example_runtime [msg_a; msg_c; msg_b] 0
           "a@x" [msg_a; msg_b]).
  - left. reflexivity.
  - exact example_clock_steady.
Defined.

(** X6.  The thread context of a message is made of the messages of the
    list that resolve to the same key and whose id differs from the
    message's id, each as often as in the list; when the clock does not
    run backwards they come in list order.  So the context never holds
    the message itself, nor any message without an id when the message
    has none. *)
Theorem thread_context_spec `{Runtime} (email : Email)
  (all_emails : list Email) (t : nat) :
  let keep := fun e => in_thread (extract_thread_id email) e
                       && opt_neq (id e) (id email) in
  Permutation (fst (get_thread_context email all_emails t))
              (filter keep all_emails) /\
  (steady_clock ->
   fst (get_thread_context email all_emails t) = filter keep all_emails).
Proof.
  cbv zeta. unfold get_thread_context, bind, ret.
  set (same := fun other_email : Email =>
                 String.eqb (extract_thread_id other_email)
                            (extract_thread_id email)).
  pose proof (sort_by_key_perm _get_email_timestamp (filter same all_emails) t)
    as P.
  pose proof (sort_keeps_fetch_order (filter same all_emails) t) as Q.
  destruct (sort_by_key _get_email_timestamp (filter same all_emails) t)
    as [sorted t1]. cbn [fst] in *.
  rewrite <- (filter_filter same (fun e => opt_neq (id e) (id email))).
  split.
  - now apply Permutation_filter.
  - intros M. now rewrite (Q M).
Qed.

Lemma thread_context_spec_witness :
  fst (@get_thread_context example_runtime msg_b [msg_a; msg_c; msg_b] 0)
  = [msg_a].
Proof.
  apply (@thread_context_spec example_runtime msg_b [msg_a; msg_c; msg_b] 0).
  exact example_clock_steady.
Defined.

(** ** The fields of a pattern analysis *)

Lemma lower_char_eqb_question (c : ascii) :
  Ascii.eqb (PyStr.lower_char c) "?" = Ascii.eqb c "?".
Proof. destruct c as [[] [] [] [] [] [] [] []]; reflexivity. Qed.

Lemma count_question_lower (s : string) :
  PyStr.count_char "?" (PyStr.lower s) = PyStr.count_char "?" s.
Proof.
  induction s as [|c s IH]; [reflexivity|]. cbn.
  now rewrite lower_char_eqb_question, IH.
Qed.

Lemma fold_step_analysis (ies : list (nat * Email)) :
  forall (acc : ThreadAnalysis) (prev : option string),
    fst (fold_left step_analysis ies (acc, prev))
    = mkAnalysis
        (thread_length acc)
        (fold_left (fun s x => set_add x s)
                   (map (fun ie => sender_of (snd ie)) ies) (participants acc))
        (response_pattern acc ++ patterns_after prev (map snd ies))%list
        (urgency_escalation acc
         || existsb (fun ie => is_urgent (snd ie) && (0 <? fst ie)%nat) ies)
        (question_count acc
         + list_sum (map (fun ie => question_marks (snd ie)) ies))
        (action_items acc
         ++ map (fun ie => action_label (fst ie))
                (filter (fun ie => requests_action (snd ie)) ies))%list.
Proof.
  induction ies as [|[i e] r IH]; intros acc prev.
  - cbn. rewrite !app_nil_r, orb_false_r, Nat.add_0_r. now destruct acc.
  - cbn [fold_left step_analysis]. rewrite IH.
    cbn [thread_length participants response_pattern urgency_escalation
         question_count action_items map fold_left snd fst patterns_after
         existsb filter list_sum].
    f_equal.
    + now rewrite <- app_assoc.
    + unfold is_urgent.
      destruct (existsb _ urgency_keywords), (0 <? i)%nat,
        (urgency_escalation acc); reflexivity.
    + unfold question_marks. rewrite count_question_lower.
      unfold list_sum. cbn [fold_right map snd]. lia.
    + unfold requests_action, action_label.
      destruct (existsb _ action_phrases); [|reflexivity].
      now rewrite <- app_assoc.
Qed.

Lemma map_snd_enumerate {A : Type} (l : list A) : map snd (enumerate l) = l.
Proof.
  unfold enumerate. generalize 0.
  induction l as [|x l IH]; intros k; [reflexivity|]. cbn. now rewrite IH.
Qed.

Lemma existsb_later (l : list Email) (k : nat) :
  existsb (fun ie : nat * Email => is_urgent (snd ie) && (0 <? fst ie)%nat)
          (combine (seq (S k) (length l)) l)
  = existsb is_urgent l.
Proof.
  revert k; induction l as [|e l IH]; intros k; [reflexivity|]. cbn.
  now rewrite IH, andb_true_r.
Qed.

(** The record [analyze_thread_patterns] builds, field by field. *)
Lemma analyze_fields `{Runtime} (thread : list Email) :
  thread <> [] ->
  analyze_thread_patterns thread
  = Some (mkAnalysis
            (length thread)
            (set_iter (set_of (map sender_of thread)))
            (patterns_after None thread)
            (existsb is_urgent (tl thread))
            (list_sum (map question_marks thread))
            (map (fun ie => action_label (fst ie))
                 (filter (fun ie => requests_action (snd ie))
                         (enumerate thread)))).
Proof.
  intros NE. unfold analyze_thread_patterns.
  destruct thread as [|e r]; [congruence|].
  pose proof (fold_step_analysis (enumerate (e :: r))
                (mkAnalysis (length (e :: r)) [] [] false 0 []) None) as F.
  destruct (fold_left step_analysis _ _) as [analysis p]. cbn [fst] in F.
  rewrite F.
  cbn [thread_length participants response_pattern urgency_escalation
       question_count action_items].
  rewrite map_snd_enumerate.
  rewrite <- (map_map snd sender_of), <- (map_map snd question_marks).
  rewrite map_snd_enumerate.
  unfold set_of. cbn [orb app Nat.add].
  f_equal. f_equal.
  unfold enumerate. cbn [length seq combine existsb snd fst tl].
  rewrite existsb_later. cbn. now rewrite andb_false_r.
Qed.

Lemma is_urgent_spec (e : Email) :
  is_urgent e = true <->
  exists keyword,
    In keyword urgency_keywords /\
    (occurs_ci keyword (get_or (body e) "") \/
     occurs_ci keyword (get_or (subject e) "")).
Proof.
  unfold is_urgent. rewrite existsb_exists.
  split; intros (kw & I & C); exists kw; (split; [exact I|]).
  - apply orb_true_iff in C.
    rewrite <- !contains_lower_ci; [exact C| |];
      repeat (destruct I as [<-|I]; [reflexivity|]); destruct I.
  - apply orb_true_iff.
    rewrite <- !contains_lower_ci in C; [exact C| |];
      repeat (destruct I as [<-|I]; [reflexivity|]); destruct I.
Qed.

Lemma requests_action_spec (e : Email) :
  requests_action e = true <->
  exists phrase,
    In phrase action_phrases /\ occurs_ci phrase (get_or (body e) "").
Proof.
  unfold requests_action. rewrite existsb_exists.
  split; intros (ph & I & C); exists ph; (split; [exact I|]).
  - rewrite <- contains_lower_ci; [exact C|];
      repeat (destruct I as [<-|I]; [reflexivity|]); destruct I.
  - rewrite <- contains_lower_ci in C; [exact C|];
      repeat (destruct I as [<-|I]; [reflexivity|]); destruct I.
Qed.

Lemma in_combine_seq {A : Type} (l : list A) :
  forall (k i : nat) (x : A),
    In (i, x) (combine (seq k (length l)) l)
    <-> k <= i /\ nth_error l (i - k) = Some x.
Proof.
  induction l as [|y l IH]; intros k i x; cbn.
  - split; [intros []|]. intros [_ E]. destruct (i - k); discriminate.
  - rewrite IH. split.
    + intros [E|[L E]].
      * inversion E; subst. split; [lia|]. now rewrite Nat.sub_diag.
      * split; [lia|]. replace (i - k) with (S (i - S k)) by lia. exact E.
    + intros [L E]. destruct (Nat.eq_dec i k) as [->|D].
      * rewrite Nat.sub_diag in E. cbn in E. left. congruence.
      * right. split; [lia|].
        replace (i - k) with (S (i - S k)) in E by lia. exact E.
Qed.

Lemma in_enumerate {A : Type} (l : list A) (i : nat) (x : A) :
  In (i, x) (enumerate l) <-> nth_error l i = Some x.
Proof.
  unfold enumerate. rewrite in_combine_seq, Nat.sub_0_r.
  split; [now intros [_ E]|]. intros E. split; [lia|exact E].
Qed.

Lemma filter_on_snd {A B : Type} (p : B -> bool) (l : list (A * B)) :
  map snd (filter (fun ab => p (snd ab)) l) = filter p (map snd l).
Proof.
  induction l as [|[a b] l IH]; [reflexivity|]. cbn.
  destruct (p b); cbn; now rewrite IH.
Qed.

(** X7.  On a thread that is not empty the analysis counts what is
    there: [thread_length] is the number of messages, [question_count]
    the number of question marks in all bodies together, and
    [participants] lists the senders of the thread, each once; so there
    are never more participants than messages. *)
Theorem analysis_counts `{Runtime} (thread : list Email) :
  thread <> [] ->
  exists a,
    analyze_thread_patterns thread = Some a /\
    thread_length a = length thread /\
    question_count a = list_sum (map question_marks thread) /\
    NoDup (participants a) /\
    (forall s, In s (participants a) <-> In s (map sender_of thread)) /\
    length (participants a) <= length thread.
Proof.
  intros NE. rewrite (analyze_fields thread NE). eexists.
  split; [reflexivity|]. cbn [thread_length question_count participants].
  destruct (set_of_spec (map sender_of thread)) as [N I].
  pose proof (set_iter_perm (set_of (map sender_of thread))) as P.
  assert (Hin : forall s, In s (set_iter (set_of (map sender_of thread)))
                          <-> In s (map sender_of thread)).
  { intros s. rewrite <- I. split; apply Permutation_in;
      [exact P|exact (Permutation_sym P)]. }
  assert (Nd : NoDup (set_iter (set_of (map sender_of thread)))).
  { exact (Permutation_NoDup (Permutation_sym P) N). }
  repeat split; try assumption; try apply Hin.
  rewrite <- (length_map sender_of thread).
  apply NoDup_incl_length; [exact Nd|]. intros s. apply Hin.
Qed.

Lemma analysis_counts_witness :
  exists a,
    @analyze_thread_patterns example_runtime [msg_a; msg_b; msg_b] = Some a /\
    thread_length a = 3 /\ question_count a = 2 /\
    length (participants a) <= 3.
Proof.
  destruct (@analysis_counts example_runtime [msg_a; msg_b; msg_b])
    as (a & Ha & L & Q & _ & _ & Pl); [discriminate|].
  exists a. repeat split; assumption.
Defined.

(** X8.  An urgency escalation is reported exactly when a message other
    than the first holds, up to letter case, one of the urgency keywords
    in its body or its subject.  Urgent wording in the first message
    alone does not count. *)
Theorem urgency_escalation_spec `{Runtime} (thread : list Email) :
  thread <> [] ->
  exists a,
    analyze_thread_patterns thread = Some a /\
    (urgency_escalation a = true <->
     exists e keyword,
       In e (tl thread) /\ In keyword urgency_keywords /\
       (occurs_ci keyword (get_or (body e) "") \/
        occurs_ci keyword (get_or (subject e) ""))).
Proof.
  intros NE. rewrite (analyze_fields thread NE). eexists.
  split; [reflexivity|]. cbn [urgency_escalation].
  rewrite existsb_exists. split.
  - intros (e & I & U). apply is_urgent_spec in U as (kw & Ik & C).
    now exists e, kw.
  - intros (e & kw & I & Ik & C). exists e. split; [exact I|].
    apply is_urgent_spec. now exists kw.
Qed.

Lemma urgency_escalation_spec_witness :
  exists a,
    @analyze_thread_patterns example_runtime [msg_urgent; msg_a] = Some a /\
    urgency_escalation a = false.
Proof.
  destruct (@urgency_escalation_spec example_runtime [msg_urgent; msg_a])
    as (a & Ha & _); [discriminate|].
  exists a. split; [exact Ha|].
  vm_compute in Ha. inversion Ha. reflexivity.
Defined.

(** X9.  There is one action item per message whose body holds, up to
    letter case, one of the action phrases; the item of the message at
    index [i] reads "Email i+1: Action requested", and the items come in
    thread order. *)
Theorem action_items_spec `{Runtime} (thread : list Email) :
  thread <> [] ->
  exists a,
    analyze_thread_patterns thread = Some a /\
    action_items a
    = map (fun ie => action_label (fst ie))
          (filter (fun ie => requests_action (snd ie)) (enumerate thread)) /\
    length (action_items a) = length (filter requests_action thread) /\
    (forall item,
        In item (action_items a) <->
        exists i e phrase,
          nth_error thread i = Some e /\
          In phrase action_phrases /\
          occurs_ci phrase (get_or (body e) "") /\
          item = action_label i).
Proof.
  intros NE. rewrite (analyze_fields thread NE). eexists.
  split; [reflexivity|]. cbn [action_items]. split; [reflexivity|]. split.
  - rewrite length_map, <- (length_map snd), filter_on_snd.
    now rewrite map_snd_enumerate.
  - intros item. rewrite in_map_iff. split.
    + intros ([i e] & <- & I). apply filter_In in I as [I R]. cbn in R.
      apply in_enumerate in I.
      apply requests_action_spec in R as (ph & Ip & C).
      now exists i, e, ph.
    + intros (i & e & ph & E & Ip & C & ->). exists (i, e).
      split; [reflexivity|]. apply filter_In. split.
      * now apply in_enumerate.
      * cbn. apply requests_action_spec. now exists ph.
Qed.

Lemma action_items_spec_witness :
  exists a,
    @analyze_thread_patterns example_runtime
      [msg_a; mkEmail (Some "2") (Some "bob@x") (Some "Re: Budget")
                      (Some "PLEASE send the file") []] = Some a /\
    action_items a = ["Email 2: Action requested"].
Proof.
  destruct (@action_items_spec example_runtime
              [msg_a; mkEmail (Some "2") (Some "bob@x") (Some "Re: Budget")
                              (Some "PLEASE send the file") []])
    as (a & Ha & E & _); [discriminate|].
  exists a. split; [exact Ha|]. rewrite E. reflexivity.
Defined.

(** X10.  The analysis of a one-message thread: length 1, the sender as
    only participant, the pattern "continuation", no urgency escalation
    however urgent the wording, the question marks of the body, and one
    action item exactly when the message asks for something. *)
Theorem singleton_analysis `{Runtime} (m : Email) :
  analyze_thread_patterns [m]
  = Some (mkAnalysis 1 [sender_of m] ["continuation"] false
                     (question_marks m)
                     (if requests_action m
                      then ["Email 1: Action requested"] else [])).
Proof.
  rewrite analyze_fields by discriminate.
  pose proof (set_iter_perm (set_of (map sender_of [m]))) as P.
  cbn in P. apply Permutation_sym, Permutation_length_1_inv in P.
  cbn. unfold set_of. cbn. rewrite P, Nat.add_0_r.
  unfold requests_action. cbn.
  now destruct (PyStr.contains "please" _ || _).
Qed.

(** ** The parts of a recommendation *)

Lemma should_draft_reply_fields `{Runtime} (email : Email) (ctx : list Email) :
  should_draft_reply email ctx
  = let asked := existsb (fun indicator =>
                            PyStr.contains indicator
                              (PyStr.lower (get_or (body email) "")))
                         reply_indicators in
    let escalated := existsb is_urgent (tl (ctx ++ [email])%list) in
    mkRec (if asked then true else false)
          (if escalated then "high" else "normal")
          (if (5 <? length ctx + 1)%nat then "summary"
           else if mentions_scheduling email then "scheduling"
           else if (2 <? list_sum (map question_marks (ctx ++ [email])%list))%nat
           then "detailed_response" else "standard")
          (if escalated
           then py_min 1.0%float
                  ((if asked then 0.8%float else 0.5%float) + 0.2)%float
           else if asked then 0.8%float else 0.5%float).
Proof.
  unfold should_draft_reply.
  rewrite (analyze_fields (ctx ++ [email])%list)
    by (intros E; now apply app_eq_nil in E as [_ E]).
  cbn [urgency_escalation thread_length question_count].
  rewrite length_app. reflexivity.
Qed.

(** X11.  The reply type is chosen by the first rule that applies: a
    context of five messages or more gives "summary" whatever the body
    says; else a scheduling word in the body (up to letter case) gives
    "scheduling"; else three question marks or more in the bodies of
    context and candidate together give "detailed_response"; else
    "standard". *)
Theorem reply_type_spec `{Runtime} (email : Email) (ctx : list Email) :
  reply_type (should_draft_reply email ctx)
  = (if (5 <=? length ctx)%nat then "summary"
     else if mentions_scheduling email then "scheduling"
     else if (3 <=? list_sum (map question_marks (ctx ++ [email])%list))%nat
     then "detailed_response" else "standard") /\
  (mentions_scheduling email = true <->
   exists word, In word scheduling_words /\
                occurs_ci word (get_or (body email) "")).
Proof.
  split.
  - rewrite should_draft_reply_fields. cbv zeta. cbn [reply_type].
    replace (5 <? length ctx + 1)%nat with (5 <=? length ctx)%nat
      by (destruct (Nat.leb_spec 5 (length ctx)),
            (Nat.ltb_spec 5 (length ctx + 1)); try reflexivity; lia).
    set (q := list_sum (map question_marks (ctx ++ [email])%list)).
    replace (2 <? q)%nat with (3 <=? q)%nat
      by (destruct (Nat.leb_spec 3 q), (Nat.ltb_spec 2 q);
          try reflexivity; lia).
    reflexivity.
  - unfold mentions_scheduling. rewrite existsb_exists.
    split; intros (w & I & C); exists w; (split; [exact I|]).
    + rewrite <- contains_lower_ci; [exact C|];
        repeat (destruct I as [<-|I]; [reflexivity|]); destruct I.
    + rewrite <- contains_lower_ci in C; [exact C|];
        repeat (destruct I as [<-|I]; [reflexivity|]); destruct I.
Qed.

(** X12.  The reply urgency is "high" or "normal"; it is "high" exactly
    when a message after the first one, in context followed by
    candidate, holds an urgency keyword in body or subject, so a
    candidate without context is never urgent.  A reply is recommended
    exactly when the confidence is at least 0.8. *)
Theorem reply_urgency_spec `{Runtime} (email : Email) (ctx : list Email) :
  let r := should_draft_reply email ctx in
  (reply_urgency r = "high" \/ reply_urgency r = "normal") /\
  (reply_urgency r = "high" <->
   exists e keyword,
     In e (tl (ctx ++ [email])%list) /\ In keyword urgency_keywords /\
     (occurs_ci keyword (get_or (body e) "") \/
      occurs_ci keyword (get_or (subject e) ""))) /\
  (ctx = [] -> reply_urgency r = "normal") /\
  (should_reply r = true <-> PrimFloat.leb 0.8 (confidence r) = true).
Proof.
  cbv zeta. rewrite should_draft_reply_fields. cbv zeta.
  cbn [reply_urgency should_reply confidence].
  assert (U : existsb is_urgent (tl (ctx ++ [email])%list) = true <->
              exists e keyword,
                In e (tl (ctx ++ [email])%list) /\ In keyword urgency_keywords /\
                (occurs_ci keyword (get_or (body e) "") \/
                 occurs_ci keyword (get_or (subject e) ""))).
  { rewrite existsb_exists. split.
    - intros (e & I & C). apply is_urgent_spec in C as (kw & Ik & C).
      now exists e, kw.
    - intros (e & kw & I & Ik & C). exists e. split; [exact I|].
      apply is_urgent_spec. now exists kw. }
  repeat split.
  - destruct (existsb is_urgent _); auto.
  - intros E. apply U. destruct (existsb is_urgent _); [reflexivity|discriminate].
  - intros E. apply U in E. now rewrite E.
  - intros ->. reflexivity.
  - destruct (existsb _ reply_indicators), (existsb is_urgent _);
      intros E; try discriminate E; reflexivity.
  - destruct (existsb _ reply_indicators), (existsb is_urgent _);
      intros E; try reflexivity; vm_compute in E; discriminate E.
Qed.

Lemma reply_urgency_spec_witness :
  reply_urgency (@should_draft_reply example_runtime msg_urgent []) = "normal".
Proof.
  apply (@reply_urgency_spec example_runtime msg_urgent []). reflexivity.
Defined.

(** ** The orchestrator, case by case *)

Lemma dict_get_set_same (k : string) (v : PyVal) (d : list (string * PyVal)) :
  dict_get k (dict_set k v d) = Some v.
Proof.
  induction d as [|[k0 w] d IH]; cbn.
  - now rewrite String.eqb_refl.
  - destruct (String.eqb k0 k) eqn:E; cbn; rewrite E; [reflexivity|exact IH].
Qed.

Lemma dict_get_set_other (k k' : string) (v : PyVal)
  (d : list (string * PyVal)) :
  k <> k' -> dict_get k' (dict_set k v d) = dict_get k' d.
Proof.
  intros D. induction d as [|[k0 w] d IH]; cbn.
  - destruct (String.eqb_spec k k'); [congruence|reflexivity].
  - destruct (String.eqb_spec k0 k) as [->|D0]; cbn.
    + destruct (String.eqb_spec k k'); [congruence|reflexivity].
    + destruct (String.eqb k0 k'); [reflexivity|exact IH].
Qed.

Lemma with_context_cases `{Runtime} `{JsonDecoder} (self : AIAnalyzer)
  (email : Email) (all_emails : option (list Email)) (t : nat) :
  fst (analyze_email_with_context self email all_emails t)
  = if negb (py_bool (base_analysis self email)) then Returns None
    else
      match context_of email all_emails t with
      | [] => Returns (Some (base_analysis self email))
      | c0 :: cs =>
          let ctx := c0 :: cs in
          let recommendation := should_draft_reply email ctx in
          let analysis := analyze_thread_patterns (ctx ++ [email])%list in
          match base_analysis self email with
          | VDict d =>
              Returns (Some (VDict
                (adjust_priority analysis recommendation
                   (dict_set "thread_context"
                      (thread_context_entry analysis
                         (get_conversation_summary (ctx ++ [email])%list)
                         recommendation) d))))
          | _ => Raises
          end
      end.
Proof.
  unfold analyze_email_with_context, context_of.
  fold (base_analysis self email).
  destruct (negb (py_bool (base_analysis self email))); [reflexivity|].
  destruct all_emails as [[|x l]|]; try reflexivity.
  cbn [get_or]. unfold bind.
  destruct (get_thread_context email (x :: l) t) as [ctx t1]. cbn [fst].
  destruct ctx as [|c0 cs]; [reflexivity|]. cbv zeta.
  now destruct (base_analysis self email).
Qed.

Lemma escalation_of_fields `{Runtime} (email : Email) (ctx : list Email) :
  reply_urgency (should_draft_reply email ctx)
  = (if existsb is_urgent (tl (ctx ++ [email])%list) then "high" else "normal")
  /\ match analyze_thread_patterns (ctx ++ [email])%list with
     | Some a => urgency_escalation a
     | None => false
     end = existsb is_urgent (tl (ctx ++ [email])%list).
Proof.
  rewrite should_draft_reply_fields. cbv zeta. cbn [reply_urgency].
  rewrite (analyze_fields (ctx ++ [email])%list)
    by (intros E; now apply app_eq_nil in E as [_ E]).
  split; reflexivity.
Qed.

Lemma adjust_priority_escalation `{Runtime} (email : Email) (ctx : list Email)
  (d : list (string * PyVal)) :
  adjust_priority (analyze_thread_patterns (ctx ++ [email])%list)
                  (should_draft_reply email ctx) d
  = if existsb is_urgent (tl (ctx ++ [email])%list)
    then dict_set "priority" (VStr "High") d else d.
Proof.
  unfold adjust_priority. destruct (escalation_of_fields email ctx) as [Eu Ea].
  rewrite Eu, Ea. now destruct (existsb is_urgent (tl (ctx ++ [email])%list)).
Qed.

(** X13.  When the classifier's record is a non-empty dict and the
    message has thread context, the returned record is that dict with a
    [thread_context] item set and with priority "High" when a later
    message of the thread is urgent; otherwise the priority is the
    classifier's own, so a "Low" priority is never raised to "Medium".
    Every other item is the classifier's, and the [thread_length]
    recorded is the size of the context plus one. *)
Theorem priority_follows_escalation `{Runtime} `{JsonDecoder}
  (self : AIAnalyzer) (email : Email) (all_emails : option (list Email))
  (t : nat) (d : list (string * PyVal)) :
  base_analysis self email = VDict d ->
  d <> [] ->
  context_of email all_emails t <> [] ->
  let ctx := context_of email all_emails t in
  exists d' entry,
    fst (analyze_email_with_context self email all_emails t)
    = Returns (Some (VDict d')) /\
    dict_get "priority" d'
    = (if existsb is_urgent (tl (ctx ++ [email])%list)
       then Some (VStr "High") else dict_get "priority" d) /\
    dict_get "thread_context" d' = Some (VDict entry) /\
    dict_get "thread_length" entry
    = Some (VInt (Z.of_nat (length ctx + 1))) /\
    (forall k, k <> "priority" -> k <> "thread_context" ->
               dict_get k d' = dict_get k d).
Proof.
  intros B Nd Nc. cbv zeta. rewrite with_context_cases, B.
  destruct d as [|item d0]; [congruence|]. cbn [py_bool negb].
  destruct (context_of email all_emails t) as [|c0 cs] eqn:Ec; [congruence|].
  cbv zeta. set (ctx := c0 :: cs).
  rewrite adjust_priority_escalation.
  rewrite (analyze_fields (ctx ++ [email])%list)
    by (intros E; now apply app_eq_nil in E as [_ E]).
  unfold thread_context_entry. cbn [thread_length participants].
  destruct (existsb is_urgent (tl (ctx ++ [email])%list)).
  - eexists. eexists. split; [reflexivity|]. split; [apply dict_get_set_same|].
    split; [|split].
    + rewrite dict_get_set_other by discriminate. apply dict_get_set_same.
    + cbn. now rewrite length_app.
    + intros k K1 K2. rewrite !dict_get_set_other; congruence.
  - eexists. eexists. split; [reflexivity|].
    split; [now rewrite dict_get_set_other by discriminate|].
    split; [apply dict_get_set_same|]. split.
    + cbn. now rewrite length_app.
    + intros k K1 K2. rewrite dict_get_set_other; congruence.
Qed.

Lemma priority_follows_escalation_witness :
  exists d' entry,
    fst (@analyze_email_with_context example_runtime example_decoder
           (mkAIAnalyzer None) msg_b (Some [msg_a; msg_b]) 0)
    = Returns (Some (VDict d')) /\
    dict_get "priority" d' = Some (VStr "Medium") /\
    dict_get "thread_context" d' = Some (VDict entry) /\
    dict_get "thread_length" entry = Some (VInt 2).
Proof.
  destruct (@priority_follows_escalation example_runtime example_decoder
              (mkAIAnalyzer None) msg_b (Some [msg_a; msg_b]) 0
              [("summary", VStr "AI analysis unavailable");
               ("category", VStr "Unknown");
               ("priority", VStr "Medium");
               ("suggested_action", VStr "NoAction");
               ("urgency_indicators", VList []);
               ("requires_response", VBool false);
               ("estimated_response_time", VNone);
               ("task_description", VNone);
               ("thread_position", VStr "Unknown")])
    as (d' & entry & E & P & C & L & _);
    [reflexivity | discriminate | discriminate |].
  exists d', entry. repeat split; assumption.
Defined.

(** X14.  The call lets an exception escape exactly when the decoded
    reply of the classifier is true in Python without being a dict (a
    non-empty array, a number, a string) and the message has thread
    context: such a value has no [update]. *)
Theorem raises_on_non_dict_reply `{Runtime} `{JsonDecoder}
  (self : AIAnalyzer) (email : Email) (all_emails : option (list Email))
  (t : nat) :
  fst (analyze_email_with_context self email all_emails t) = Raises <->
  py_bool (base_analysis self email) = true /\
  is_dict (base_analysis self email) = false /\
  context_of email all_emails t <> [].
Proof.
  rewrite with_context_cases.
  destruct (py_bool (base_analysis self email)); cbn [negb].
  - destruct (context_of email all_emails t) as [|c0 cs].
    + split; [discriminate|]. intros (_ & _ & N). congruence.
    + cbv zeta. destruct (base_analysis self email); cbn [is_dict];
        split; try discriminate; try (intros (_ & E & _); discriminate E);
        intros _; repeat split; discriminate.
  - split; [discriminate|]. intros (E & _). discriminate E.
Qed.

Lemma raises_on_non_dict_reply_witness :
  fst (@analyze_email_with_context example_runtime array_decoder
         (canned_client "[1]") msg_b (Some [msg_a; msg_b]) 0)
  = Raises.
Proof.
  apply (@raises_on_non_dict_reply example_runtime array_decoder
           (canned_client "[1]") msg_b (Some [msg_a; msg_b]) 0).
  repeat split. discriminate.
Defined.

(** X15.  Without thread context (no list, an empty list, or no other
    message of the thread in the list) a reply that is true in Python is
    returned as it is, dict or not. *)
Theorem no_context_returns_base `{Runtime} `{JsonDecoder}
  (self : AIAnalyzer) (email : Email) (all_emails : option (list Email))
  (t : nat) :
  py_bool (base_analysis self email) = true ->
  context_of email all_emails t = [] ->
  fst (analyze_email_with_context self email all_emails t)
  = Returns (Some (base_analysis self email)).
Proof.
  intros B C. rewrite with_context_cases, B, C. reflexivity.
Qed.

Lemma no_context_returns_base_witness :
  fst (@analyze_email_with_context example_runtime array_decoder
         (canned_client "[1]") msg_c (Some [msg_a; msg_c; msg_b]) 0)
  = Returns (Some (VList [VInt 1])).
Proof.
  apply (@no_context_returns_base example_runtime array_decoder
           (canned_client "[1]") msg_c (Some [msg_a; msg_c; msg_b]) 0);
    reflexivity.
Defined.

(** ** Decoding the reply of the classifier *)

Lemma find_char_first (c : ascii) (pre rest : string) :
  lacks c pre = true ->
  find_char c (pre ++ String c rest) = Some (String.length pre).
Proof.
  unfold lacks. induction pre as [|a pre IH]; cbn.
  - now rewrite Ascii.eqb_refl.
  - intros E. apply andb_true_iff in E as [Ea Ep].
    apply negb_true_iff in Ea. now rewrite Ea, (IH Ep).
Qed.

Lemma rfind_char_none (c : ascii) (post : string) :
  lacks c post = true -> rfind_char c post = None.
Proof.
  unfold lacks. induction post as [|a post IH]; [reflexivity|]. cbn.
  intros E. apply andb_true_iff in E as [Ea Ep].
  apply negb_true_iff in Ea. now rewrite (IH Ep), Ea.
Qed.

Lemma rfind_char_last (c : ascii) (y post : string) :
  lacks c post = true ->
  rfind_char c (y ++ String c post) = Some (String.length y).
Proof.
  intros L. induction y as [|a y IH]; cbn.
  - now rewrite (rfind_char_none c post L), Ascii.eqb_refl.
  - now rewrite IH.
Qed.

Lemma drop_length_app (a b : string) : PyStr.drop (String.length a) (a ++ b) = b.
Proof. induction a as [|c a IH]; [now destruct b|exact IH]. Qed.

Lemma take_length_app (a b : string) : PyStr.take (String.length a) (a ++ b) = a.
Proof.
  induction a as [|c a IH]; cbn; [now destruct b|]. now rewrite IH.
Qed.

Lemma string_length_app (a b : string) :
  String.length (a ++ b) = String.length a + String.length b.
Proof. induction a as [|c a IH]; cbn; [|rewrite IH]; reflexivity. Qed.

Lemma lstrip_before_char (pre : string) (c : ascii) (x : string) :
  PyStr.isspace c = false ->
  PyStr.lstrip (pre ++ String c x) = PyStr.lstrip pre ++ String c x.
Proof.
  intros N. induction pre as [|a pre IH]; cbn.
  - now rewrite N.
  - now destruct (PyStr.isspace a).
Qed.

Lemma rstrip_after_char (y : string) (c : ascii) (post : string) :
  PyStr.isspace c = false ->
  PyStr.rstrip (y ++ String c post) = y ++ String c (PyStr.rstrip post).
Proof.
  intros N. induction y as [|a y IH]; cbn.
  - rewrite N. now destruct (PyStr.rstrip post).
  - rewrite IH. now destruct y.
Qed.

Lemma lacks_lstrip (c : ascii) (s : string) :
  lacks c s = true -> lacks c (PyStr.lstrip s) = true.
Proof.
  unfold lacks. induction s as [|a s IH]; [reflexivity|]. cbn.
  intros E. destruct (PyStr.isspace a); [|exact E].
  apply andb_true_iff in E as [_ Es]. exact (IH Es).
Qed.

Lemma lacks_rstrip (c : ascii) (s : string) :
  lacks c s = true -> lacks c (PyStr.rstrip s) = true.
Proof.
  unfold lacks. induction s as [|a s IH]; [reflexivity|]. cbn.
  intros E. apply andb_true_iff in E as [Ea Es]. specialize (IH Es).
  destruct (PyStr.rstrip s) as [|b r].
  - destruct (PyStr.isspace a); [reflexivity|]. cbn. now rewrite Ea.
  - cbn in *. now rewrite Ea.
Qed.

(** X16.  Chatter around the JSON object is tolerated: when the text
    before the object holds no opening brace and the text after it no
    closing brace, the reply decodes as the object alone, from its
    opening brace to its closing brace. *)
Theorem decode_response_wrapped `{JsonDecoder} (pre mid post : string) :
  lacks "{" pre = true ->
  lacks "}" post = true ->
  decode_response (pre ++ String "{" (mid ++ String "}" post))
  = json_loads (String "{" (mid ++ String "}" "")).
Proof.
  intros Lp Lq. unfold decode_response, PyStr.strip.
  rewrite (lstrip_before_char pre "{" _ eq_refl).
  set (p := PyStr.lstrip pre).
  assert (E : p ++ String "{" (mid ++ String "}" post)
              = (p ++ String "{" mid) ++ String "}" post).
  { now rewrite string_app_assoc. }
  rewrite E, (rstrip_after_char (p ++ String "{" mid) "}" post eq_refl).
  set (q := PyStr.rstrip post).
  rewrite (rfind_char_last "}" (p ++ String "{" mid) q (lacks_rstrip _ _ Lq)).
  rewrite string_app_assoc. cbn [append].
  rewrite (find_char_first "{" p (mid ++ String "}" q) (lacks_lstrip _ _ Lp)).
  unfold slice. rewrite drop_length_app.
  rewrite string_length_app. cbn [String.length].
  replace (String.length p + S (String.length mid) + 1 - String.length p)
    with (String.length (String "{" (mid ++ String "}" "")))
    by (cbn; rewrite string_length_app; cbn; lia).
  replace (String "{" (mid ++ String "}" q))
    with (String "{" (mid ++ String "}" "") ++ q)
    by (cbn; now rewrite string_app_assoc).
  now rewrite take_length_app.
Qed.

Lemma decode_response_wrapped_witness :
  @decode_response example_decoder "Sure, here it is: {} Anything else?"
  = Some (VDict []).
Proof.
  apply (@decode_response_wrapped example_decoder
           "Sure, here it is: " "" " Anything else?"); reflexivity.
Defined.

(** ** Draft replies and bulk suggestions *)

(** X17.  [generate_draft_reply] returns nothing without a client, and
    a draft it returns is always a dict that carries the id of the
    message it answers under [original_email_id] ([None] for a message
    without id). *)
Theorem draft_reply_record `{Runtime} `{JsonDecoder} `{PromptReplies}
  (self : AIAnalyzer) (email : Email) (all_emails : option (list Email))
  (reply_tone reply_type_ : string) (t : nat) :
  (client self = None ->
   fst (generate_draft_reply self email all_emails reply_tone reply_type_ t)
   = None) /\
  (forall v,
      fst (generate_draft_reply self email all_emails reply_tone reply_type_ t)
      = Some v ->
      client self <> None /\
      exists d, v = VDict d /\
                dict_get "original_email_id" d = Some (py_id email)).
Proof.
  unfold generate_draft_reply. split.
  - now intros ->.
  - intros v. destruct (client self) as [c|]; [|discriminate].
    unfold bind.
    destruct all_emails as [[|e0 l0]|]; unfold ret at 1;
      try destruct (get_thread_context email (e0 :: l0) t) as [ctx t1];
      (destruct (complete_draft _) as [text|]; [|discriminate]);
      (destruct (find_char "{" _) as [js|]; [|discriminate]);
      (destruct (rfind_char "}" _) as [e|]; [|discriminate]);
      (destruct (json_loads _) as [[| | | | | |d]|]; try discriminate);
      cbn; intros E; inversion E; subst; (split; [discriminate|]);
      eexists; (split; [reflexivity|]); apply dict_get_set_same.
Qed.

Lemma draft_reply_record_witness :
  exists d,
    fst (@generate_draft_reply example_runtime example_decoder example_replies
           (canned_client "") msg_b (Some [msg_a; msg_b]) "professional"
           "auto" 0)
    = Some (VDict d) /\
    dict_get "original_email_id" d = Some (VStr "2").
Proof.
  destruct (proj2 (@draft_reply_record example_runtime example_decoder
                     example_replies (canned_client "") msg_b
                     (Some [msg_a; msg_b]) "professional" "auto" 0)
                  (VDict [("original_email_id", VStr "2")]) eq_refl)
    as (_ & d & E & G).
  exists d. split; [now rewrite <- E|exact G].
Defined.




Lemma enumerate_map {A B : Type} (f : A -> B) (l : list A) :
  enumerate (map f l) = map (fun ie => (fst ie, f (snd ie))) (enumerate l).
Proof.
  unfold enumerate. rewrite length_map. generalize 0.
  induction l as [|x l IH]; intros k; [reflexivity|]. cbn. now rewrite IH.
Qed.

Lemma bulk_lines_of_views (l : list Email) :
  map bulk_line (enumerate l)
  = map (fun iv : nat * (string * string * string) =>
           let '(i, (from, subj, text)) := iv in
           PyStr.of_nat (i + 1) ++ ". From: " ++ from ++ " | Subject: " ++ subj
           ++ " | Body: " ++ text ++ "...")
        (enumerate (map bulk_view l)).
Proof.
  rewrite enumerate_map, map_map. apply map_ext. now intros [i e].
Qed.

(** X19.  [generate_bulk_suggestions] looks at the first twenty messages
    only, and of each at its sender, its subject and the first hundred
    characters of its body: two lists that agree on these get the same
    suggestions.  In particular the messages after the twentieth have no
    influence. *)
Theorem bulk_suggestions_view `{JsonDecoder} `{PromptReplies}
  (self : AIAnalyzer) (emails emails' : list Email) :
  map bulk_view (firstn 20 emails) = map bulk_view (firstn 20 emails') ->
  generate_bulk_suggestions self emails
  = generate_bulk_suggestions self emails'.
Proof.
  intros E. unfold generate_bulk_suggestions.
  now rewrite !bulk_lines_of_views, E.
Qed.

Lemma bulk_suggestions_view_witness :
  @generate_bulk_suggestions example_decoder example_replies
    (canned_client "") (repeat msg_a 20 ++ [msg_b; msg_c])
  = @generate_bulk_suggestions example_decoder example_replies
      (canned_client "") (repeat msg_a 20).
Proof.
  apply (@bulk_suggestions_view example_decoder example_replies).
  reflexivity.
Defined.

(** ** The shape of a normalized subject *)

Lemma collapse_single_spaced (x : string) :
  forall b, single_spaced b (collapse_spaces b x) = true.
Proof.
  induction x as [|c x IH]; intros b; [reflexivity|]. cbn.
  destruct (PyStr.isspace c) eqn:E.
  - destruct b; [apply IH|]. cbn. apply IH.
  - cbn. rewrite E. apply IH.
Qed.

Lemma lstrip_single_spaced (y : string) :
  forall b, single_spaced b y = true -> single_spaced false (PyStr.lstrip y) = true.
Proof.
  induction y as [|c y IH]; intros b S; [reflexivity|]. cbn in *.
  destruct (PyStr.isspace c) eqn:E.
  - apply andb_true_iff in S as [_ S]. exact (IH true S).
  - cbn. now rewrite E.
Qed.

Lemma rstrip_single_spaced (y : string) :
  forall b, single_spaced b y = true -> single_spaced b (PyStr.rstrip y) = true.
Proof.
  induction y as [|c y IH]; intros b S; [reflexivity|]. cbn in *.
  destruct (PyStr.isspace c) eqn:E.
  - apply andb_true_iff in S as [Sc S]. specialize (IH true S).
    destruct (PyStr.rstrip y); [reflexivity|]. cbn [single_spaced].
    now rewrite E, Sc.
  - specialize (IH false S).
    destruct (PyStr.rstrip y); cbn [single_spaced]; now rewrite E.
Qed.

Lemma single_spaced_collapse (r : string) :
  forall b, single_spaced b r = true -> collapse_spaces b r = r.
Proof.
  induction r as [|c r IH]; intros b S; [reflexivity|]. cbn in *.
  destruct (PyStr.isspace c) eqn:E.
  - apply andb_true_iff in S as [Sc S]. apply andb_true_iff in Sc as [Nb Ec].
    apply negb_true_iff in Nb. subst b. apply Ascii.eqb_eq in Ec. subst c.
    now rewrite (IH true S).
  - now rewrite (IH false S).
Qed.

Lemma rstrip_idem (y : string) : PyStr.rstrip (PyStr.rstrip y) = PyStr.rstrip y.
Proof.
  induction y as [|c y IH]; [reflexivity|]. cbn.
  destruct (PyStr.rstrip y) as [|d r] eqn:E.
  - destruct (PyStr.isspace c) eqn:Ec; [reflexivity|]. cbn. now rewrite Ec.
  - change (match PyStr.rstrip (String d r) with
            | EmptyString =>
                if PyStr.isspace c then EmptyString else String c EmptyString
            | String a0 s0 => String c (String a0 s0)
            end = String c (String d r)).
    now rewrite IH.
Qed.

Lemma lstrip_rstrip_lstrip (w : string) :
  PyStr.lstrip (PyStr.rstrip (PyStr.lstrip w)) = PyStr.rstrip (PyStr.lstrip w).
Proof.
  induction w as [|c w IH]; [reflexivity|]. cbn [PyStr.lstrip].
  destruct (PyStr.isspace c) eqn:E; [exact IH|].
  cbn [PyStr.rstrip]. destruct (PyStr.rstrip w); rewrite ?E; cbn;
    now rewrite E.
Qed.

Lemma lower_char_idem (c : ascii) : is_lower (PyStr.lower_char c) = true.
Proof. destruct c as [[] [] [] [] [] [] [] []]; reflexivity. Qed.

Lemma lower_is_lower (s : string) : all_chars is_lower (PyStr.lower s) = true.
Proof.
  induction s as [|c s IH]; [reflexivity|]. cbn.
  now rewrite lower_char_idem, IH.
Qed.

Lemma all_chars_drop (P : ascii -> bool) (n : nat) (s : string) :
  all_chars P s = true -> all_chars P (PyStr.drop n s) = true.
Proof.
  revert s; induction n as [|n IH]; intros [|c s] A; cbn; try exact A.
  apply andb_true_iff in A as [_ A]. exact (IH s A).
Qed.

Lemma all_chars_lstrip (P : ascii -> bool) (s : string) :
  all_chars P s = true -> all_chars P (PyStr.lstrip s) = true.
Proof.
  induction s as [|c s IH]; intros A; [reflexivity|]. cbn.
  destruct (PyStr.isspace c); [|exact A].
  apply andb_true_iff in A as [_ A]. exact (IH A).
Qed.

Lemma all_chars_rstrip (P : ascii -> bool) (s : string) :
  all_chars P s = true -> all_chars P (PyStr.rstrip s) = true.
Proof.
  induction s as [|c s IH]; intros A; [reflexivity|]. cbn in *.
  apply andb_true_iff in A as [Ac A]. specialize (IH A).
  destruct (PyStr.rstrip s).
  - destruct (PyStr.isspace c); [reflexivity|]. cbn. now rewrite Ac.
  - cbn in *. now rewrite Ac.
Qed.

Lemma all_chars_collapse (P : ascii -> bool) (s : string) :
  P " "%char = true ->
  forall b, all_chars P s = true -> all_chars P (collapse_spaces b s) = true.
Proof.
  intros Pb. induction s as [|c s IH]; intros b A; [reflexivity|]. cbn in *.
  apply andb_true_iff in A as [Ac A].
  destruct (PyStr.isspace c).
  - destruct b; [now apply IH|]. cbn. rewrite Pb. now apply IH.
  - cbn. rewrite Ac. now apply IH.
Qed.

(** X20.  A normalized subject is tidy: it has no white space at either
    end, its words are separated by single blanks and by nothing else,
    and it holds no capital letter; stripping, collapsing or lower-casing
    it again changes nothing. *)
Theorem normalize_subject_tidy (subj : string) :
  let r := _normalize_subject subj in
  PyStr.strip r = r /\
  collapse_spaces false r = r /\
  PyStr.lower r = r /\
  single_spaced false r = true.
Proof.
  cbv zeta. unfold _normalize_subject.
  set (x := strip_reply_prefix (PyStr.lower subj)).
  assert (S : single_spaced false
                (PyStr.strip (collapse_spaces false x)) = true).
  { unfold PyStr.strip. apply rstrip_single_spaced.
    apply (lstrip_single_spaced _ false). apply collapse_single_spaced. }
  assert (L : all_chars is_lower (PyStr.strip (collapse_spaces false x)) = true).
  { unfold PyStr.strip. apply all_chars_rstrip, all_chars_lstrip.
    apply all_chars_collapse; [reflexivity|].
    unfold x, strip_reply_prefix.
    destruct (PyStr.startswith "re:" _);
      [apply all_chars_lstrip, all_chars_drop, lower_is_lower|].
    destruct (PyStr.startswith "fwd:" _);
      [apply all_chars_lstrip, all_chars_drop, lower_is_lower|].
    destruct (PyStr.startswith "fw:" _);
      [apply all_chars_lstrip, all_chars_drop, lower_is_lower|].
    apply lower_is_lower. }
  repeat split.
  - unfold PyStr.strip at 1 2. now rewrite lstrip_rstrip_lstrip, rstrip_idem.
  - now apply single_spaced_collapse.
  - revert L. generalize (PyStr.strip (collapse_spaces false x)).
    induction s as [|c s IH]; [reflexivity|]. cbn. intros A.
    apply andb_true_iff in A as [Ac A]. unfold is_lower in Ac.
    apply Ascii.eqb_eq in Ac. now rewrite Ac, (IH A).
  - exact S.
Qed.
